(** * LU-factorization dispatch layer of jaxlib's GPU solver kernels

    A shallow embedding of [jaxlib/gpu/solver_kernels_ffi.cc]: the three
    functions [GetrfImpl], [GetrfBatchedImpl] and [GetrfDispatch], the two
    kernel adapters generated by [GETRF_KERNEL_IMPL] and
    [GETRF_BATCHED_KERNEL_IMPL], and what they need of their collaborators.

    The GPU runtime, the vendor libraries, the handle pools and the scratch
    allocator are external: they are modelled as oracles that answer each
    call from the log of the calls made so far, and every call is appended
    to that log together with its answer.  The theorems speak about the
    returned [Error] and about the log. *)

From Stdlib Require Import ZArith String List Bool Lia.
Import ListNotations.
Local Open Scope Z_scope.

(** ** Machine integers *)

Module MachineInt.

Definition INT_MAX : Z := 2147483647.
Definition INT_MIN : Z := -2147483648.

(** Value of an [int] expression whose mathematical value is [z]
    (two's complement, 32 bits); also the implicit conversion
    [int64_t -> int] at a call site.  C++ leaves signed overflow
    undefined; the model takes the wrap-around of the compiled code. *)
Definition to_int (z : Z) : Z := (z + 2 ^ 31) mod 2 ^ 32 - 2 ^ 31.

(** Value of a [size_t] expression whose mathematical value is [z]. *)
Definition to_size_t (z : Z) : Z := z mod 2 ^ 64.

Definition fits_int (z : Z) : Prop := INT_MIN <= z <= INT_MAX.

Definition fits_intb (z : Z) : bool := (INT_MIN <=? z) && (z <=? INT_MAX).

(** [int * int] and [++i] on an [int].  Both are exact as long as the
    result fits an [int]; beyond that the wrap-around stands for a
    behaviour that C++ does not define. *)
Definition int_mul (m n : Z) : Z := to_int (m * n).
Definition int_succ (i : Z) : Z := to_int (i + 1).

(** [int64_t / int64_t]: C++ division truncates towards zero. *)
Definition int64_div (a b : Z) : Z := Z.quot a b.

End MachineInt.
Import MachineInt.

(** ** Types of the FFI layer ([xla/ffi/api/ffi.h]) *)

Inductive DataType : Set :=
| INVALID | PRED | S8 | S16 | S32 | S64 | U8 | U16 | U32 | U64
| F16 | BF16 | F32 | F64 | C64 | C128 | TOKEN.

Definition DataType_eq_dec (x y : DataType) : {x = y} + {x <> y}.
Proof. decide equality. Defined.

Definition DataType_eqb (x y : DataType) : bool :=
  if DataType_eq_dec x y then true else false.

Inductive ErrorCode : Set :=
| kOk | kCancelled | kUnknown | kInvalidArgument | kDeadlineExceeded
| kNotFound | kAlreadyExists | kPermissionDenied | kResourceExhausted
| kFailedPrecondition | kAborted | kOutOfRange | kUnimplemented
| kInternal | kUnavailable | kDataLoss | kUnauthenticated.

(** [ffi::Error]: a code and a message. *)
Record Error : Set := mkError { code : ErrorCode; message : string }.

Definition Success : Error := mkError kOk "".

(** [absl::Status] and [absl::StatusOr<A>]. *)
Record Status : Set := mkStatus { status_code : ErrorCode; status_message : string }.

Definition StatusOr (A : Type) : Type := (Status + A)%type.

(** [ffi::AnyBuffer]: element type, dimensions and device address. *)
Record AnyBuffer : Set := mkAnyBuffer {
  element_type : DataType;
  dimensions : list Z;
  untyped_data : Z
}.

(** [ffi::Buffer<ffi::DataType::S32>]: only its device address is used. *)
Record BufferS32 : Set := mkBufferS32 { typed_data : Z }.

Definition gpuStream_t : Set := Z.

(** The template parameter [T] of [GetrfImpl] and [GetrfBatchedImpl]. *)
Inductive ElemType : Set := T_float | T_double | T_complex | T_double_complex.

Definition sizeof (T : ElemType) : Z :=
  match T with
  | T_float => 4
  | T_double => 8
  | T_complex => 8
  | T_double_complex => 16
  end.

(** Size of a pointer and of an [int] on the 64-bit targets of the library. *)
Definition sizeof_ptr : Z := 8.
Definition sizeof_int : Z := 4.

(** ** The external world *)

(** Status returned by a call into the GPU runtime or a vendor library. *)
Inductive gpuStatus : Set :=
| gpuSuccess
| gpuFailure (what : string).

(** One entry of the log: the call, its arguments and its answer.
    Addresses are byte addresses. *)
Inductive Event : Set :=
| SolverBorrow (stream : gpuStream_t) (answer : option Z)
| BlasBorrow (stream : gpuStream_t) (answer : option Z)
| BufferSizeQuery (T : ElemType) (handle m n lda : Z)
                  (answer : gpuStatus) (lwork : Z)
| ScratchAllocate (bytes : Z) (answer : option Z)
| MemcpyAsync (dst src bytes : Z) (stream : gpuStream_t) (answer : gpuStatus)
| GetrfRun (T : ElemType) (handle m n a lda workspace lwork ipiv info : Z)
           (answer : gpuStatus) (info_code : Z)
| MakeBatchPointers (stream : gpuStream_t) (buffer dev_ptrs batch stride : Z)
| GetLastError (answer : gpuStatus)
| GetrfBatchedRun (T : ElemType) (handle n a lda ipiv info batch : Z)
                  (answer : gpuStatus) (info_codes : list Z).

Definition Trace : Set := list Event.

(** [ffi::ScratchAllocator]: [Allocate] answers with an address or with
    nothing. *)
Record ScratchAllocator : Set := mkScratch {
  Allocate_answer : Trace -> Z -> option Z
}.

(** The GPU runtime, the two vendor libraries and the two handle pools.
    A factorization answers with a status (did the call go through) and
    with the info code(s) it writes to device memory (0: success, k > 0:
    zero pivot at step k). *)
Record Backend : Set := mkBackend {
  solver_handle : Trace -> gpuStream_t -> option Z;
  blas_handle : Trace -> gpuStream_t -> option Z;
  getrf_bufferSize : Trace -> ElemType -> Z -> Z -> Z -> gpuStatus * Z;
  memcpy_status : Trace -> Z -> Z -> Z -> gpuStream_t -> gpuStatus;
  getrf : Trace -> ElemType -> Z -> Z -> Z -> Z -> gpuStatus * Z;
  last_error : Trace -> gpuStatus;
  getrfBatched : Trace -> ElemType -> Z -> Z -> Z -> Z -> gpuStatus * list Z
}.

(** ** A monad for device code with early return

    A computation reads and extends the log; it yields a value ([inr]),
    returns early from the enclosing function with an [Error] ([inl]), or
    is still running when the fuel of a loop is spent ([None]). *)

Definition Dev (A : Type) : Type := Trace -> option ((Error + A) * Trace).

Definition ret {A} (x : A) : Dev A := fun tr => Some (inr x, tr).

Definition return_error {A} (e : Error) : Dev A := fun tr => Some (inl e, tr).

Definition out_of_fuel {A} : Dev A := fun _ => None.

Definition bind {A B} (c : Dev A) (k : A -> Dev B) : Dev B :=
  fun tr =>
    match c tr with
    | None => None
    | Some (inl e, tr') => Some (inl e, tr')
    | Some (inr x, tr') => k x tr'
    end.

Notation "x <- c1 ;; c2" := (bind c1 (fun x => c2))
  (at level 61, c1 at next level, right associativity).
Notation "' pat <- c1 ;; c2" :=
  (bind c1 (fun x => match x with pat => c2 end))
  (at level 61, pat pattern, c1 at next level, right associativity).

(** An FFI function returns an [Error]; a [return] in the middle and the
    [return] at the end are the same to its caller. *)
Definition FfiFn : Type := Trace -> option (Error * Trace).

Definition ffi_function (body : Dev Error) : FfiFn :=
  fun tr =>
    match body tr with
    | None => None
    | Some (inl e, tr') => Some (e, tr')
    | Some (inr e, tr') => Some (e, tr')
    end.

(** [return f(...);] *)
Definition return_call {A} (f : FfiFn) : Dev A :=
  fun tr =>
    match f tr with
    | None => None
    | Some (e, tr') => Some (inl e, tr')
    end.

(** ** Helpers of the repository that the file includes *)

(** An [absl::Status] is ok when its code is [kOk]. *)
Definition OkStatus : Status := mkStatus kOk "".

Definition ok (st : Status) : bool :=
  match status_code st with
  | kOk => true
  | _ => false
  end.

(** Modelled from the spec: the conversion of an [absl::Status] into an
    [ffi::Error] done by the macros [FFI_ASSIGN_OR_RETURN] and
    [FFI_RETURN_IF_ERROR_STATUS] of [jaxlib/ffi_helpers.h], which is not
    among the sources.  The layer translates failures into a uniform
    [(code, message)] error result: code and message are carried over. *)
Definition AsFfiError (st : Status) : Error :=
  mkError (status_code st) (status_message st).

Definition FFI_ASSIGN_OR_RETURN {A} (rhs : Dev (StatusOr A)) : Dev A :=
  r <- rhs ;;
  match r with
  | inl st => return_error (AsFfiError st)
  | inr x => ret x
  end.

Definition FFI_RETURN_IF_ERROR_STATUS (rhs : Dev Status) : Dev unit :=
  st <- rhs ;;
  if ok st then ret tt else return_error (AsFfiError st).

(** Modelled from the spec: [JAX_AS_STATUS] of
    [jaxlib/gpu/gpu_kernel_helpers.h], which is not among the sources.  A
    device launch error or a backend-call failure is reported as [Unknown]
    with a descriptive message. *)
Definition JAX_AS_STATUS (s : gpuStatus) : Status :=
  match s with
  | gpuSuccess => OkStatus
  | gpuFailure what => mkStatus kUnknown what
  end.

(** Modelled from the spec: [MaybeCastNoOverflow<int>] of
    [jaxlib/ffi_helpers.h], which is not among the sources.  The value must
    fit a 32-bit signed range, else [InvalidArgument] (overflow-checked
    cast). *)
Definition MaybeCastNoOverflow_int (value : Z) : StatusOr Z :=
  if fits_intb value then inr value
  else inl (mkStatus kInvalidArgument
              "value does not fit the 32-bit signed range of the desired type").

(** Modelled from the spec: [SplitBatch2D] of [jaxlib/ffi_helpers.h], which
    is not among the sources.  The dimensions must be decomposable into
    [(batch, rows, cols)], else [InvalidArgument]; rows and cols are the two
    trailing dimensions and the batch count is derived from the leading
    ones (their product). *)
Definition SplitBatch2D (dims : list Z) : StatusOr (Z * Z * Z) :=
  match rev dims with
  | cols :: rows :: leading => inr (fold_right Z.mul 1 leading, rows, cols)
  | _ => inl (mkStatus kInvalidArgument
                "the shape does not decompose into (batch, rows, cols)")
  end.

(** Append one call to the log and yield its outcome. *)
Definition call {A} (f : Trace -> Event * A) : Dev A :=
  fun tr => let '(ev, x) := f tr in Some (inr x, tr ++ [ev]).

Section WithBackend.

Variable be : Backend.

(** Modelled from the spec: [SolverHandlePool::Borrow] of
    [jaxlib/gpu/solver_handle_pool.h], which is not among the sources.
    It returns a handle bound to the stream; a handle-creation failure is
    a runtime failure, reported as [Unknown]. *)
Definition SolverHandlePool_Borrow (stream : gpuStream_t) : Dev (StatusOr Z) :=
  call (fun tr =>
          let h := solver_handle be tr stream in
          (SolverBorrow stream h,
           match h with
           | Some handle => inr handle
           | None => inl (mkStatus kUnknown "unable to create a solver handle")
           end)).

(** Modelled from the spec: [BlasHandlePool::Borrow] of
    [jaxlib/gpu/blas_handle_pool.h], which is not among the sources; the
    second pool, with the same contract. *)
Definition BlasHandlePool_Borrow (stream : gpuStream_t) : Dev (StatusOr Z) :=
  call (fun tr =>
          let h := blas_handle be tr stream in
          (BlasBorrow stream h,
           match h with
           | Some handle => inr handle
           | None => inl (mkStatus kUnknown "unable to create a BLAS handle")
           end)).

(** [scratch.Allocate(bytes)] *)
Definition Allocate (scratch : ScratchAllocator) (bytes : Z) : Dev (option Z) :=
  call (fun tr =>
          let r := Allocate_answer scratch tr bytes in
          (ScratchAllocate bytes r, r)).

(** [gpuMemcpyAsync(dst, src, bytes, gpuMemcpyDeviceToDevice, stream)] *)
Definition gpuMemcpyAsync (dst src bytes : Z) (stream : gpuStream_t) : Dev gpuStatus :=
  call (fun tr =>
          let st := memcpy_status be tr dst src bytes stream in
          (MemcpyAsync dst src bytes stream st, st)).

(** [MakeBatchPointersAsync(stream, buffer, dev_ptrs, batch, stride)]:
    returns nothing; the arguments are logged as the caller passes them. *)
Definition MakeBatchPointersAsync (stream : gpuStream_t)
    (buffer dev_ptrs batch stride : Z) : Dev unit :=
  call (fun _ => (MakeBatchPointers stream buffer dev_ptrs batch stride, tt)).

Definition gpuGetLastError : Dev gpuStatus :=
  call (fun tr => let st := last_error be tr in (GetLastError st, st)).

(** *** [GetrfKernel<T>], from [GETRF_KERNEL_IMPL] *)

Definition GetrfKernel_BufferSize (T : ElemType) (handle m n : Z)
  : Dev (StatusOr Z) :=
  call (fun tr =>
          let '(st, lwork) := getrf_bufferSize be tr T handle m n in
          (BufferSizeQuery T handle m n m st lwork,
           if ok (JAX_AS_STATUS st) then inr lwork else inl (JAX_AS_STATUS st))).

Definition GetrfKernel_Run (T : ElemType)
    (handle m n a workspace lwork ipiv info : Z) : Dev Status :=
  call (fun tr =>
          let '(st, info_code) := getrf be tr T handle m n a in
          (GetrfRun T handle m n a m workspace lwork ipiv info st info_code,
           JAX_AS_STATUS st)).

(** *** [GetrfBatchedKernel<T>], from [GETRF_BATCHED_KERNEL_IMPL]

    The last parameter of [Run] is an [int]. *)

Definition GetrfBatchedKernel_Run (T : ElemType)
    (handle n a lda ipiv info batch : Z) : Dev Status :=
  call (fun tr =>
          let '(st, info_codes) := getrfBatched be tr T handle n a batch in
          (GetrfBatchedRun T handle n a lda ipiv info batch st info_codes,
           JAX_AS_STATUS st)).

(** *** [GetrfImpl<T>] *)

Section Loop.

Variables (T : ElemType) (handle m n workspace lwork batch : Z).

(** The [for] loop of [GetrfImpl]: [i] is an [int], [batch] an
    [int64_t]; each turn of the loop spends one unit of fuel. *)
Fixpoint GetrfImpl_loop (fuel : nat) (i out_data ipiv_data info_data : Z)
  : Dev unit :=
  if i <? batch then
    match fuel with
    | O => out_of_fuel
    | S fuel' =>
        _ <- FFI_RETURN_IF_ERROR_STATUS
               (GetrfKernel_Run T handle m n out_data workspace lwork
                                ipiv_data info_data) ;;
        GetrfImpl_loop fuel' (int_succ i)
                       (out_data + sizeof T * int_mul m n)
                       (ipiv_data + sizeof_int * Z.min m n)
                       (info_data + sizeof_int)
    end
  else ret tt.

End Loop.

Definition GetrfImpl_body (T : ElemType) (batch rows cols : Z)
    (stream : gpuStream_t) (scratch : ScratchAllocator)
    (a out : AnyBuffer) (ipiv info : BufferS32) (fuel : nat) : Dev Error :=
  m <- FFI_ASSIGN_OR_RETURN (ret (MaybeCastNoOverflow_int rows)) ;;
  n <- FFI_ASSIGN_OR_RETURN (ret (MaybeCastNoOverflow_int cols)) ;;
  handle <- FFI_ASSIGN_OR_RETURN (SolverHandlePool_Borrow stream) ;;
  lwork <- FFI_ASSIGN_OR_RETURN (GetrfKernel_BufferSize T handle m n) ;;
  maybe_workspace <- Allocate scratch (to_size_t (sizeof T * lwork)) ;;
  match maybe_workspace with
  | None =>
      return_error (mkError kUnknown "Unable to allocate workspace for getrf")
  | Some workspace =>
      let a_data := untyped_data a in
      let out_data := untyped_data out in
      let ipiv_data := typed_data ipiv in
      let info_data := typed_data info in
      _ <- (if negb (a_data =? out_data) then
              FFI_RETURN_IF_ERROR_STATUS
                (st <- gpuMemcpyAsync out_data a_data
                         (to_size_t (sizeof T * batch * rows * cols)) stream ;;
                 ret (JAX_AS_STATUS st))
            else ret tt) ;;
      _ <- GetrfImpl_loop T handle m n workspace lwork batch fuel
                          0 out_data ipiv_data info_data ;;
      ret Success
  end.

Definition GetrfImpl (T : ElemType) (batch rows cols : Z)
    (stream : gpuStream_t) (scratch : ScratchAllocator)
    (a out : AnyBuffer) (ipiv info : BufferS32) (fuel : nat) : FfiFn :=
  ffi_function (GetrfImpl_body T batch rows cols stream scratch a out ipiv info fuel).

(** *** [GetrfBatchedImpl<T>] *)

Definition GetrfBatchedImpl_body (T : ElemType) (batch cols : Z)
    (stream : gpuStream_t) (scratch : ScratchAllocator)
    (a out : AnyBuffer) (ipiv info : BufferS32) : Dev Error :=
  n <- FFI_ASSIGN_OR_RETURN (ret (MaybeCastNoOverflow_int cols)) ;;
  handle <- FFI_ASSIGN_OR_RETURN (BlasHandlePool_Borrow stream) ;;
  maybe_workspace <- Allocate scratch (to_size_t (sizeof_ptr * batch)) ;;
  match maybe_workspace with
  | None =>
      return_error
        (mkError kUnknown "Unable to allocate workspace for batched getrf")
  | Some workspace =>
      let a_data := untyped_data a in
      let out_data := untyped_data out in
      let ipiv_data := typed_data ipiv in
      let info_data := typed_data info in
      _ <- (if negb (a_data =? out_data) then
              FFI_RETURN_IF_ERROR_STATUS
                (st <- gpuMemcpyAsync out_data a_data
                         (to_size_t (sizeof T * batch * cols * cols)) stream ;;
                 ret (JAX_AS_STATUS st))
            else ret tt) ;;
      _ <- MakeBatchPointersAsync stream out_data workspace batch
                                  (to_size_t (sizeof T * n * n)) ;;
      _ <- FFI_RETURN_IF_ERROR_STATUS
             (st <- gpuGetLastError ;; ret (JAX_AS_STATUS st)) ;;
      let batch_ptrs := workspace in
      _ <- FFI_RETURN_IF_ERROR_STATUS
             (GetrfBatchedKernel_Run T handle n batch_ptrs n
                                     ipiv_data info_data (to_int batch)) ;;
      ret Success
  end.

Definition GetrfBatchedImpl (T : ElemType) (batch cols : Z)
    (stream : gpuStream_t) (scratch : ScratchAllocator)
    (a out : AnyBuffer) (ipiv info : BufferS32) : FfiFn :=
  ffi_function (GetrfBatchedImpl_body T batch cols stream scratch a out ipiv info).

(** *** [GetrfDispatch] *)

Definition GetrfDispatch_body (stream : gpuStream_t) (scratch : ScratchAllocator)
    (a out : AnyBuffer) (ipiv info : BufferS32) (fuel : nat) : Dev Error :=
  let dataType := element_type a in
  if negb (DataType_eqb dataType (element_type out)) then
    return_error
      (mkError kInvalidArgument
         "The input and output to getrf must have the same element type")
  else
    '(batch, rows, cols) <- FFI_ASSIGN_OR_RETURN (ret (SplitBatch2D (dimensions a))) ;;
    _ <- (if (1 <? batch) && (rows =? cols) && (int64_div rows batch <=? 128)
          then
            if DataType_eqb dataType F32 then
              return_call (GetrfBatchedImpl T_float batch cols stream scratch
                                            a out ipiv info)
            else if DataType_eqb dataType F64 then
              return_call (GetrfBatchedImpl T_double batch cols stream scratch
                                            a out ipiv info)
            else if DataType_eqb dataType C64 then
              return_call (GetrfBatchedImpl T_complex batch cols stream scratch
                                            a out ipiv info)
            else if DataType_eqb dataType C128 then
              return_call (GetrfBatchedImpl T_double_complex batch cols stream
                                            scratch a out ipiv info)
            else ret tt
          else
            if DataType_eqb dataType F32 then
              return_call (GetrfImpl T_float batch rows cols stream scratch
                                     a out ipiv info fuel)
            else if DataType_eqb dataType F64 then
              return_call (GetrfImpl T_double batch rows cols stream scratch
                                     a out ipiv info fuel)
            else if DataType_eqb dataType C64 then
              return_call (GetrfImpl T_complex batch rows cols stream scratch
                                     a out ipiv info fuel)
            else if DataType_eqb dataType C128 then
              return_call (GetrfImpl T_double_complex batch rows cols stream
                                     scratch a out ipiv info fuel)
            else ret tt) ;;
    return_error
      (mkError kInvalidArgument "Unsupported element type for getrf").

Definition GetrfDispatch (stream : gpuStream_t) (scratch : ScratchAllocator)
    (a out : AnyBuffer) (ipiv info : BufferS32) (fuel : nat) : FfiFn :=
  ffi_function (GetrfDispatch_body stream scratch a out ipiv info fuel).

End WithBackend.

(** ** Properties of inputs and of logs *)

(** The element types the dispatcher has an instantiation for. *)
Definition supported (dt : DataType) : option ElemType :=
  match dt with
  | F32 => Some T_float
  | F64 => Some T_double
  | C64 => Some T_complex
  | C128 => Some T_double_complex
  | _ => None
  end.

(** The transition rule as the specification words it, with the
    mathematical (floor) division. *)
Definition batched_condition (batch rows cols : Z) : Prop :=
  1 < batch /\ rows = cols /\ rows / batch <= 128.

(** The codes the layer is allowed to put in an error result. *)
Definition layer_code (c : ErrorCode) : Prop :=
  c = kOk \/ c = kInvalidArgument \/ c = kUnknown.

(** The calls that begin or perform the factorization. *)
Definition factorization_call (ev : Event) : bool :=
  match ev with
  | MakeBatchPointers _ _ _ _ _ => true
  | GetrfRun _ _ _ _ _ _ _ _ _ _ _ _ => true
  | GetrfBatchedRun _ _ _ _ _ _ _ _ _ _ => true
  | _ => false
  end.

(** The calls into the vendor's solver and BLAS libraries. *)
Definition vendor_call (ev : Event) : bool :=
  match ev with
  | BufferSizeQuery _ _ _ _ _ _ _ => true
  | GetrfRun _ _ _ _ _ _ _ _ _ _ _ _ => true
  | GetrfBatchedRun _ _ _ _ _ _ _ _ _ _ => true
  | _ => false
  end.

Definition is_copy (ev : Event) : bool :=
  match ev with
  | MemcpyAsync _ _ _ _ _ => true
  | _ => false
  end.

(** The log of the loop of [GetrfImpl] started with the three cursors
    at [out_data], [ipiv_data] and [info_data]: one [Run] after the other,
    the cursors moved between two of them as the loop body moves them. *)
Fixpoint looped_runs (T : ElemType) (handle m n workspace lwork : Z)
    (out_data ipiv_data info_data : Z) (runs : list Event) : Prop :=
  match runs with
  | [] => True
  | ev :: rest =>
      (exists st info_code,
          ev = GetrfRun T handle m n out_data m workspace lwork
                        ipiv_data info_data st info_code) /\
      looped_runs T handle m n workspace lwork
                  (out_data + sizeof T * int_mul m n)
                  (ipiv_data + sizeof_int * Z.min m n)
                  (info_data + sizeof_int) rest
  end.

Definition is_run (ev : Event) : bool :=
  match ev with
  | GetrfRun _ _ _ _ _ _ _ _ _ _ _ _ => true
  | _ => false
  end.

(** No factorization call is logged before the copy [the_copy]; once the
    copy is logged anything may follow. *)
Inductive copy_first (the_copy : Event -> Prop) : Trace -> Prop :=
| copy_first_nil : copy_first the_copy []
| copy_first_copy (ev : Event) (rest : Trace) :
    the_copy ev -> copy_first the_copy (ev :: rest)
| copy_first_other (ev : Event) (rest : Trace) :
    factorization_call ev = false ->
    copy_first the_copy rest -> copy_first the_copy (ev :: rest).

(** The device-to-device copy of [bytes] bytes from [a] to [out] on
    [stream], whatever its answer. *)
Definition payload_copy (a out : AnyBuffer) (bytes : Z) (stream : gpuStream_t)
    (ev : Event) : Prop :=
  exists st,
    ev = MemcpyAsync (untyped_data out) (untyped_data a) bytes stream st.

(** What the batched strategy may log, written with [cols] only. *)
Definition batched_event (T : ElemType) (batch cols : Z) (stream : gpuStream_t)
    (a out : AnyBuffer) (ipiv info : BufferS32) (ev : Event) : Prop :=
  match ev with
  | BlasBorrow s _ => s = stream
  | ScratchAllocate bytes _ => bytes = to_size_t (sizeof_ptr * batch)
  | MemcpyAsync dst src bytes s _ =>
      dst = untyped_data out /\ src = untyped_data a /\
      bytes = to_size_t (sizeof T * batch * cols * cols) /\ s = stream
  | MakeBatchPointers s buffer _ b stride =>
      s = stream /\ buffer = untyped_data out /\ b = batch /\
      stride = to_size_t (sizeof T * cols * cols)
  | GetLastError _ => True
  | GetrfBatchedRun T' _ n _ lda ip inf b _ _ =>
      T' = T /\ n = cols /\ lda = cols /\ ip = typed_data ipiv /\
      inf = typed_data info /\ b = to_int batch
  | _ => False
  end.

(** Handle borrowing, the workspace query and the scratch allocation
    succeed whenever they are asked for. *)
Definition setup_succeeds (be : Backend) (scratch : ScratchAllocator) : Prop :=
  (forall tr s, solver_handle be tr s <> None) /\
  (forall tr s, blas_handle be tr s <> None) /\
  (forall tr T h m n, fst (getrf_bufferSize be tr T h m n) = gpuSuccess) /\
  (forall tr bytes, Allocate_answer scratch tr bytes <> None).

(** Every call into the runtime and the vendor libraries reports success;
    nothing is asked of the info codes the factorizations write. *)
Definition calls_go_through (be : Backend) : Prop :=
  (forall tr dst src bytes s, memcpy_status be tr dst src bytes s = gpuSuccess) /\
  (forall tr T h m n p, fst (getrf be tr T h m n p) = gpuSuccess) /\
  (forall tr, last_error be tr = gpuSuccess) /\
  (forall tr T h n p b, fst (getrfBatched be tr T h n p b) = gpuSuccess).

(** Matrix [k] of the batch has been handed to a factorization call at its
    place in the output, pivot and info arrays: by a [Run] of the loop, or
    by the batched [Run] over a pointer array of [batch] slots. *)
Definition matrix_factorized (T : ElemType) (stream : gpuStream_t)
    (out : AnyBuffer) (ipiv info : BufferS32) (batch rows cols k : Z)
    (tr : Trace) : Prop :=
  (exists h ws lwork st ic,
      In (GetrfRun T h rows cols
                   (untyped_data out + sizeof T * (k * (rows * cols))) rows
                   ws lwork
                   (typed_data ipiv + sizeof_int * (k * Z.min rows cols))
                   (typed_data info + sizeof_int * k) st ic) tr)
  \/
  (rows = cols /\
   exists h ws st ics,
     In (MakeBatchPointers stream (untyped_data out) ws batch
                           (sizeof T * (cols * cols))) tr /\
     In (GetrfBatchedRun T h cols ws cols (typed_data ipiv) (typed_data info)
                         batch st ics) tr).

(** ** Further properties of logs *)

(** The answer of a call reports a failure. *)
Definition failed (ev : Event) : bool :=
  match ev with
  | SolverBorrow _ None => true
  | BlasBorrow _ None => true
  | BufferSizeQuery _ _ _ _ _ (gpuFailure _) _ => true
  | ScratchAllocate _ None => true
  | MemcpyAsync _ _ _ _ (gpuFailure _) => true
  | GetrfRun _ _ _ _ _ _ _ _ _ _ (gpuFailure _) _ => true
  | GetLastError (gpuFailure _) => true
  | GetrfBatchedRun _ _ _ _ _ _ _ _ (gpuFailure _) _ => true
  | _ => false
  end.

(** The calls that only the looped strategy makes, and the calls that only
    the batched strategy makes. *)
Definition solver_side (ev : Event) : bool :=
  match ev with
  | SolverBorrow _ _ => true
  | BufferSizeQuery _ _ _ _ _ _ _ => true
  | GetrfRun _ _ _ _ _ _ _ _ _ _ _ _ => true
  | _ => false
  end.

Definition blas_side (ev : Event) : bool :=
  match ev with
  | BlasBorrow _ _ => true
  | MakeBatchPointers _ _ _ _ _ => true
  | GetLastError _ => true
  | GetrfBatchedRun _ _ _ _ _ _ _ _ _ _ => true
  | _ => false
  end.

Definition is_borrow (ev : Event) : bool :=
  match ev with
  | SolverBorrow _ _ => true
  | BlasBorrow _ _ => true
  | _ => false
  end.

Definition is_size_query (ev : Event) : bool :=
  match ev with
  | BufferSizeQuery _ _ _ _ _ _ _ => true
  | _ => false
  end.

Definition is_allocation (ev : Event) : bool :=
  match ev with
  | ScratchAllocate _ _ => true
  | _ => false
  end.

Definition is_pointer_build (ev : Event) : bool :=
  match ev with
  | MakeBatchPointers _ _ _ _ _ => true
  | _ => false
  end.

Definition is_batched_run (ev : Event) : bool :=
  match ev with
  | GetrfBatchedRun _ _ _ _ _ _ _ _ _ _ => true
  | _ => false
  end.

(** Modelled from the spec: the declaration of [MakeBatchPointersAsync], in
    make_batch_pointers.h, is not among the sources at hand.  Its batch
    count is a 32-bit [int], as the one of the batched [Run] is: of the
    64-bit count that the caller passes, which the log records, the build
    receives the conversion to [int]. *)
Definition build_count (ev : Event) : option Z :=
  match ev with
  | MakeBatchPointers _ _ _ batch _ => Some (to_int batch)
  | _ => None
  end.

(** How many calls of a kind a log holds. *)
Definition count (kind : Event -> bool) (tr : Trace) : nat :=
  length (filter kind tr).

(** The single-matrix factorization goes through while fewer than [k]
    [Run] calls are in the log and fails when there are exactly [k]. *)
Definition run_fails_at (k : nat) (be : Backend) : Prop :=
  forall tr T h m n p,
    ((count is_run tr < k)%nat -> fst (getrf be tr T h m n p) = gpuSuccess) /\
    (count is_run tr = k ->
     exists what, fst (getrf be tr T h m n p) = gpuFailure what).

(** The stream a call is issued on or bound to, for the calls that take
    one. *)
Definition event_stream (ev : Event) : option gpuStream_t :=
  match ev with
  | SolverBorrow s _ => Some s
  | BlasBorrow s _ => Some s
  | MemcpyAsync _ _ _ s _ => Some s
  | MakeBatchPointers s _ _ _ _ => Some s
  | _ => None
  end.

Definition on_stream (stream : gpuStream_t) (ev : Event) : Prop :=
  event_stream ev = None \/ event_stream ev = Some stream.

(** ** Sample collaborators and inputs *)

(** Every call succeeds; every matrix is reported singular at step 1. *)
Definition friendly : Backend :=
  mkBackend (fun _ _ => Some 7) (fun _ _ => Some 9)
            (fun _ _ _ _ _ => (gpuSuccess, 16))
            (fun _ _ _ _ _ => gpuSuccess)
            (fun _ _ _ _ _ _ => (gpuSuccess, 1))
            (fun _ => gpuSuccess)
            (fun _ _ _ _ _ b => (gpuSuccess, repeat 1 (Z.to_nat b))).

(** As [friendly], but the single-matrix factorization does not go
    through. *)
Definition broken_solver : Backend :=
  mkBackend (fun _ _ => Some 7) (fun _ _ => Some 9)
            (fun _ _ _ _ _ => (gpuSuccess, 16))
            (fun _ _ _ _ _ => gpuSuccess)
            (fun _ _ _ _ _ _ => (gpuFailure "getrf: execution failed", 0))
            (fun _ => gpuSuccess)
            (fun _ _ _ _ _ b => (gpuSuccess, repeat 0 (Z.to_nat b))).

Definition roomy : ScratchAllocator := mkScratch (fun _ _ => Some 4096).

Definition exhausted : ScratchAllocator := mkScratch (fun _ _ => None).

Definition pivots : BufferS32 := mkBufferS32 3000.
Definition infos : BufferS32 := mkBufferS32 4000.

(** As [friendly], but the device reports a launch error after the
    pointer-array build. *)
Definition broken_launch : Backend :=
  mkBackend (fun _ _ => Some 7) (fun _ _ => Some 9)
            (fun _ _ _ _ _ => (gpuSuccess, 16))
            (fun _ _ _ _ _ => gpuSuccess)
            (fun _ _ _ _ _ _ => (gpuSuccess, 0))
            (fun _ => gpuFailure "invalid configuration argument")
            (fun _ _ _ _ _ b => (gpuSuccess, repeat 0 (Z.to_nat b))).

(** As [friendly], but [Run] number [k] (counted from 0) does not go
    through. *)
Definition breaks_at (k : nat) : Backend :=
  mkBackend (fun _ _ => Some 7) (fun _ _ => Some 9)
            (fun _ _ _ _ _ => (gpuSuccess, 16))
            (fun _ _ _ _ _ => gpuSuccess)
            (fun tr _ _ _ _ _ =>
               if (count is_run tr <? k)%nat then (gpuSuccess, 0)
               else (gpuFailure "getrf: execution failed", 0))
            (fun _ => gpuSuccess)
            (fun _ _ _ _ _ b => (gpuSuccess, repeat 0 (Z.to_nat b))).

(** ** Arithmetic of the machine integers *)

Lemma to_int_fits (z : Z) : fits_int z -> to_int z = z.
Proof.
  unfold fits_int, INT_MIN, INT_MAX, to_int. intros H.
  rewrite Z.mod_small; lia.
Qed.

Lemma to_int_range (z : Z) : fits_int (to_int z).
Proof.
  unfold fits_int, INT_MIN, INT_MAX, to_int.
  pose proof (Z.mod_pos_bound (z + 2 ^ 31) (2 ^ 32) ltac:(lia)). lia.
Qed.

Lemma fits_intb_spec (z : Z) : fits_intb z = true <-> fits_int z.
Proof. unfold fits_intb, fits_int. rewrite andb_true_iff, !Z.leb_le. tauto. Qed.

Lemma fits_intb_false (z : Z) : fits_intb z = false <-> ~ fits_int z.
Proof.
  rewrite <- fits_intb_spec. destruct (fits_intb z); split; congruence.
Qed.

Lemma to_size_t_small (z : Z) : 0 <= z < 2 ^ 64 -> to_size_t z = z.
Proof. intros H. unfold to_size_t. apply Z.mod_small. exact H. Qed.

Lemma int64_div_le (rows batch bound : Z) :
  1 < batch -> 0 <= bound ->
  (int64_div rows batch <= bound <-> rows / batch <= bound).
Proof.
  intros Hb Hk. unfold int64_div.
  destruct (Z_le_gt_dec 0 rows) as [Hr | Hr].
  - rewrite Z.quot_div_nonneg by lia. tauto.
  - assert (rows ÷ batch <= 0).
    { replace rows with (- - rows) by lia. rewrite Z.quot_opp_l by lia.
      pose proof (Z.quot_pos (- rows) batch ltac:(lia) ltac:(lia)). lia. }
    assert (rows / batch < 0) by (apply Z.div_lt_upper_bound; lia).
    lia.
Qed.

Lemma ffi_function_return_call {A} (f : FfiFn) (k : A -> Dev Error) (tr : Trace) :
  ffi_function (x <- return_call f ;; k x) tr = f tr.
Proof.
  unfold ffi_function, bind, return_call.
  destruct (f tr) as [[e tr'] | ]; reflexivity.
Qed.

Lemma DataType_eqb_refl (d : DataType) : DataType_eqb d d = true.
Proof. unfold DataType_eqb. destruct (DataType_eq_dec d d); congruence. Qed.

Lemma DataType_eqb_neq (d d' : DataType) : d <> d' -> DataType_eqb d d' = false.
Proof. unfold DataType_eqb. destruct (DataType_eq_dec d d'); congruence. Qed.

Section Dispatcher.

Variables (be : Backend) (stream : gpuStream_t) (scratch : ScratchAllocator).
Variables (a out : AnyBuffer) (ipiv info : BufferS32) (fuel : nat).

Local Abbreviation dispatch := (GetrfDispatch be stream scratch a out ipiv info fuel).

Lemma dispatch_type_mismatch (tr : Trace) :
  element_type a <> element_type out ->
  dispatch tr =
    Some (mkError kInvalidArgument
            "The input and output to getrf must have the same element type", tr).
Proof.
  intros H. unfold GetrfDispatch, ffi_function, GetrfDispatch_body.
  rewrite DataType_eqb_neq by exact H. reflexivity.
Qed.

Lemma dispatch_split_failure (st : Status) (tr : Trace) :
  element_type a = element_type out ->
  SplitBatch2D (dimensions a) = inl st ->
  dispatch tr = Some (AsFfiError st, tr).
Proof.
  intros Ht Hs. unfold GetrfDispatch, ffi_function, GetrfDispatch_body.
  rewrite Ht, DataType_eqb_refl. cbn [negb].
  unfold FFI_ASSIGN_OR_RETURN, bind, ret. rewrite Hs. reflexivity.
Qed.

Lemma dispatch_unsupported (batch rows cols : Z) (tr : Trace) :
  element_type a = element_type out ->
  SplitBatch2D (dimensions a) = inr (batch, rows, cols) ->
  supported (element_type a) = None ->
  dispatch tr =
    Some (mkError kInvalidArgument "Unsupported element type for getrf", tr).
Proof.
  intros Ht Hs Hu. unfold GetrfDispatch, ffi_function, GetrfDispatch_body.
  rewrite <- Ht, DataType_eqb_refl. cbn [negb].
  unfold FFI_ASSIGN_OR_RETURN, bind, ret. rewrite Hs.
  destruct (element_type a); try discriminate Hu; cbn;
    destruct (_ && _); reflexivity.
Qed.

Lemma dispatch_supported (T : ElemType) (batch rows cols : Z) (tr : Trace) :
  element_type a = element_type out ->
  SplitBatch2D (dimensions a) = inr (batch, rows, cols) ->
  supported (element_type a) = Some T ->
  dispatch tr =
    if (1 <? batch) && (rows =? cols) && (int64_div rows batch <=? 128)
    then GetrfBatchedImpl be T batch cols stream scratch a out ipiv info tr
    else GetrfImpl be T batch rows cols stream scratch a out ipiv info fuel tr.
Proof.
  intros Ht Hs Hu. unfold GetrfDispatch, GetrfDispatch_body.
  rewrite <- Ht, DataType_eqb_refl. cbn [negb].
  unfold FFI_ASSIGN_OR_RETURN at 1.
  unfold ffi_function at 1. unfold bind at 1. unfold bind at 1. unfold ret at 1.
  rewrite Hs. unfold ret at 1.
  destruct ((1 <? batch) && (rows =? cols) && (int64_div rows batch <=? 128));
    destruct (element_type a); try discriminate Hu;
    injection Hu as <-; cbn [DataType_eqb DataType_eq_dec];
    apply (ffi_function_return_call (A := unit)).
Qed.

End Dispatcher.

Lemma batched_condition_test (batch rows cols : Z) :
  (1 <? batch) && (rows =? cols) && (int64_div rows batch <=? 128) = true
  <-> batched_condition batch rows cols.
Proof.
  unfold batched_condition.
  rewrite !andb_true_iff, Z.ltb_lt, Z.eqb_eq, Z.leb_le.
  split.
  - intros [[Hb Hr] Hq]. repeat split; try assumption.
    apply int64_div_le; [ assumption | lia | assumption ].
  - intros [Hb [Hr Hq]]. repeat split; try assumption.
    apply int64_div_le; [ assumption | lia | assumption ].
Qed.

Lemma batched_condition_test_false (batch rows cols : Z) :
  (1 <? batch) && (rows =? cols) && (int64_div rows batch <=? 128) = false
  <-> ~ batched_condition batch rows cols.
Proof.
  rewrite <- batched_condition_test.
  destruct (_ && _); split; congruence.
Qed.

(** ** Running the straight-line code symbolically *)

(** Split on the innermost [match] of a hypothesis. *)
Ltac split_match H :=
  match type of H with
  | context [match ?x with _ => _ end] =>
      lazymatch x with
      | context [match _ with _ => _ end] => fail
      | _ => destruct x eqn:?
      end
  end.

Ltac unfold_device H :=
  unfold ffi_function, FFI_ASSIGN_OR_RETURN, FFI_RETURN_IF_ERROR_STATUS,
    SolverHandlePool_Borrow, BlasHandlePool_Borrow, Allocate, gpuMemcpyAsync,
    MakeBatchPointersAsync, gpuGetLastError, GetrfKernel_BufferSize,
    GetrfKernel_Run, GetrfBatchedKernel_Run, MaybeCastNoOverflow_int,
    ok, JAX_AS_STATUS, OkStatus, bind, ret, return_error, call in H.

Ltac finish_run H :=
  first [ discriminate H
        | injection H as <- <- ].

Ltac run_device H :=
  unfold_device H;
  repeat (split_match H; cbn [status_code negb] in H);
  try finish_run H.

(** ** The loop of [GetrfImpl] *)

Section LoopFacts.

Variables (be : Backend) (T : ElemType) (handle m n workspace lwork batch : Z).

Local Abbreviation loop := (GetrfImpl_loop be T handle m n workspace lwork batch).
Local Abbreviation runs_from := (looped_runs T handle m n workspace lwork).

Lemma loop_exit (fuel : nat) (i o p f : Z) (tr : Trace) :
  batch <= i -> loop fuel i o p f tr = Some (inr tt, tr).
Proof.
  intros H. destruct fuel; cbn [GetrfImpl_loop];
    (replace (i <? batch) with false by (symmetry; apply Z.ltb_ge; exact H));
    reflexivity.
Qed.

Lemma loop_step (fuel : nat) (i o p f : Z) (tr : Trace) :
  i < batch ->
  loop (S fuel) i o p f tr =
    match getrf be tr T handle m n o with
    | (gpuSuccess, ic) =>
        loop fuel (int_succ i) (o + sizeof T * int_mul m n)
             (p + sizeof_int * Z.min m n) (f + sizeof_int)
             (tr ++ [GetrfRun T handle m n o m workspace lwork p f gpuSuccess ic])
    | (gpuFailure what, ic) =>
        Some (inl (mkError kUnknown what),
              tr ++ [GetrfRun T handle m n o m workspace lwork p f
                              (gpuFailure what) ic])
    end.
Proof.
  intros H. cbn [GetrfImpl_loop].
  replace (i <? batch) with true by (symmetry; apply Z.ltb_lt; exact H).
  unfold FFI_RETURN_IF_ERROR_STATUS, GetrfKernel_Run, bind, call, ret,
    return_error.
  destruct (getrf be tr T handle m n o) as [[ | what] ic]; reflexivity.
Qed.

Lemma loop_out_of_fuel (i o p f : Z) (tr : Trace) :
  i < batch -> loop O i o p f tr = None.
Proof.
  intros H. cbn [GetrfImpl_loop].
  replace (i <? batch) with true by (symmetry; apply Z.ltb_lt; exact H).
  reflexivity.
Qed.

Lemma int_succ_fits (i : Z) : fits_int i -> i < INT_MAX -> int_succ i = i + 1.
Proof.
  unfold int_succ, fits_int. intros H1 H2. apply to_int_fits.
  unfold fits_int. lia.
Qed.

Lemma int_succ_wraps : int_succ INT_MAX = INT_MIN.
Proof. reflexivity. Qed.

(** What the loop has logged when it is left, and how it is left. *)
Lemma loop_inv (fuel : nat) :
  forall (i o p f : Z) (tr : Trace) (r : Error + unit) (tr' : Trace),
    fits_int i ->
    loop fuel i o p f tr = Some (r, tr') ->
    exists runs,
      tr' = tr ++ runs /\ runs_from o p f runs /\
      match r with
      | inl e => code e = kUnknown /\ runs <> []
      | inr _ => Z.of_nat (length runs) = Z.max 0 (batch - i) /\
                 (i < batch -> batch <= INT_MAX)
      end.
Proof.
  induction fuel as [ | fuel IH]; intros i o p f tr r tr' Hi H.
  - destruct (Z_lt_le_dec i batch) as [Hlt | Hge].
    + rewrite loop_out_of_fuel in H by exact Hlt. discriminate H.
    + rewrite loop_exit in H by exact Hge. injection H as <- <-.
      exists []. rewrite app_nil_r. cbn. repeat split; lia.
  - destruct (Z_lt_le_dec i batch) as [Hlt | Hge].
    + rewrite loop_step in H by exact Hlt.
      destruct (getrf be tr T handle m n o) as [[ | what] ic].
      * apply IH in H; [ | apply to_int_range ].
        destruct H as (runs & -> & Hruns & Hr).
        eexists (_ :: runs). rewrite <- app_assoc. split; [ reflexivity | ].
        split; [ cbn; split; [ eauto | exact Hruns ] | ].
        destruct r as [e | []].
        { split; [ tauto | discriminate ]. }
        destruct Hr as [Hlen Hmax].
        destruct (Z.eq_dec i INT_MAX) as [-> | Hne].
        { rewrite int_succ_wraps in Hmax. unfold INT_MIN, INT_MAX in *. lia. }
        rewrite int_succ_fits in Hlen, Hmax by (unfold fits_int in *; lia).
        cbn [length]. unfold fits_int in Hi. split; lia.
      * injection H as <- <-.
        eexists [_]. split; [ reflexivity | ].
        cbn. repeat split; eauto. discriminate.
    + rewrite loop_exit in H by exact Hge. injection H as <- <-.
      exists []. rewrite app_nil_r. cbn. repeat split; lia.
Qed.

(** With the batch count in the range of the index, the loop is left
    before [batch - i] units of fuel are spent. *)
Lemma loop_returns (fuel : nat) :
  forall (i o p f : Z) (tr : Trace),
    fits_int i -> batch <= INT_MAX -> batch - i <= Z.of_nat fuel ->
    loop fuel i o p f tr <> None.
Proof.
  induction fuel as [ | fuel IH]; intros i o p f tr Hi Hb Hf.
  - rewrite loop_exit by lia. discriminate.
  - destruct (Z_lt_le_dec i batch) as [Hlt | Hge].
    + rewrite loop_step by exact Hlt.
      destruct (getrf be tr T handle m n o) as [[ | what] ic];
        [ | discriminate ].
      assert (Hs : int_succ i = i + 1)
        by (apply int_succ_fits; unfold fits_int in *; lia).
      apply IH; rewrite ?Hs; unfold fits_int in *; lia.
    + rewrite loop_exit by exact Hge. discriminate.
Qed.

(** A backend whose factorizations all go through never makes the loop
    return early. *)
Lemma loop_no_failure (fuel : nat) :
  (forall tr o, fst (getrf be tr T handle m n o) = gpuSuccess) ->
  forall (i o p f : Z) (tr : Trace) (e : Error) (tr' : Trace),
    loop fuel i o p f tr <> Some (inl e, tr').
Proof.
  intros Hok. induction fuel as [ | fuel IH]; intros i o p f tr e tr'.
  - destruct (Z_lt_le_dec i batch) as [Hlt | Hge].
    + rewrite loop_out_of_fuel by exact Hlt. discriminate.
    + rewrite loop_exit by exact Hge. discriminate.
  - destruct (Z_lt_le_dec i batch) as [Hlt | Hge].
    + rewrite loop_step by exact Hlt. specialize (Hok tr o).
      destruct (getrf be tr T handle m n o) as [st ic]. cbn in Hok. subst st.
      apply IH.
    + rewrite loop_exit by exact Hge. discriminate.
Qed.

(** The cursors in closed form. *)
Lemma looped_runs_nth (runs : list Event) :
  forall (o p f : Z) (k : nat) (ev : Event),
    runs_from o p f runs ->
    nth_error runs k = Some ev ->
    exists st ic,
      ev = GetrfRun T handle m n
                    (o + Z.of_nat k * (sizeof T * int_mul m n)) m
                    workspace lwork
                    (p + Z.of_nat k * (sizeof_int * Z.min m n))
                    (f + Z.of_nat k * sizeof_int) st ic.
Proof.
  induction runs as [ | ev0 runs IH]; intros o p f k ev Hruns Hk.
  - destruct k; discriminate Hk.
  - destruct Hruns as [(st & ic & ->) Hrest]. destruct k as [ | k].
    + injection Hk as <-. exists st, ic. f_equal; cbn; lia.
    + cbn [nth_error] in Hk.
      destruct (IH _ _ _ _ _ Hrest Hk) as (st' & ic' & ->).
      exists st', ic'. f_equal; lia.
Qed.

End LoopFacts.

(** ** The overflow-checked casts *)

Lemma MaybeCastNoOverflow_int_fits (v : Z) :
  fits_int v -> MaybeCastNoOverflow_int v = inr v.
Proof.
  intros H. unfold MaybeCastNoOverflow_int.
  apply fits_intb_spec in H. rewrite H. reflexivity.
Qed.

Lemma MaybeCastNoOverflow_int_overflow (v : Z) :
  ~ fits_int v ->
  exists st, MaybeCastNoOverflow_int v = inl st /\ status_code st = kInvalidArgument.
Proof.
  intros H. unfold MaybeCastNoOverflow_int.
  apply fits_intb_false in H. rewrite H. eexists. split; reflexivity.
Qed.

Section Casts.

Variables (be : Backend) (T : ElemType) (batch rows cols : Z).
Variables (stream : gpuStream_t) (scratch : ScratchAllocator).
Variables (a out : AnyBuffer) (ipiv info : BufferS32) (fuel : nat).

Lemma GetrfBatchedImpl_overflow (st : Status) (tr : Trace) :
  MaybeCastNoOverflow_int cols = inl st ->
  GetrfBatchedImpl be T batch cols stream scratch a out ipiv info tr
  = Some (AsFfiError st, tr).
Proof.
  intros H. unfold GetrfBatchedImpl, GetrfBatchedImpl_body, ffi_function,
    FFI_ASSIGN_OR_RETURN, bind, ret.
  rewrite H. reflexivity.
Qed.

Lemma GetrfImpl_overflow_rows (st : Status) (tr : Trace) :
  MaybeCastNoOverflow_int rows = inl st ->
  GetrfImpl be T batch rows cols stream scratch a out ipiv info fuel tr
  = Some (AsFfiError st, tr).
Proof.
  intros H. unfold GetrfImpl, GetrfImpl_body, ffi_function,
    FFI_ASSIGN_OR_RETURN, bind, ret.
  rewrite H. reflexivity.
Qed.

Lemma GetrfImpl_overflow_cols (st : Status) (tr : Trace) :
  fits_int rows ->
  MaybeCastNoOverflow_int cols = inl st ->
  GetrfImpl be T batch rows cols stream scratch a out ipiv info fuel tr
  = Some (AsFfiError st, tr).
Proof.
  intros Hr H. unfold GetrfImpl, GetrfImpl_body, ffi_function,
    FFI_ASSIGN_OR_RETURN, bind, ret.
  rewrite (MaybeCastNoOverflow_int_fits rows Hr), H. reflexivity.
Qed.

End Casts.

(** ** The claims *)

(** Claim C5.  When the element type of the input buffer differs from the
    element type of the output buffer, the dispatcher returns
    [InvalidArgument] and the log is what it was: no copy, no handle
    borrow, no backend call has been made. *)
Theorem type_mismatch_rejected_before_device_work
    (be : Backend) (stream : gpuStream_t) (scratch : ScratchAllocator)
    (a out : AnyBuffer) (ipiv info : BufferS32) (fuel : nat) (tr : Trace) :
  element_type a <> element_type out ->
  exists msg,
    GetrfDispatch be stream scratch a out ipiv info fuel tr
    = Some (mkError kInvalidArgument msg, tr).
Proof.
  intros H. eexists. apply dispatch_type_mismatch. exact H.
Qed.

Lemma type_mismatch_rejected_before_device_work_witness :
  F32 <> F64 /\
  exists msg,
    GetrfDispatch friendly 1 roomy
                  (mkAnyBuffer F32 [2; 3; 3] 1000) (mkAnyBuffer F64 [2; 3; 3] 2000)
                  pivots infos 2 []
    = Some (mkError kInvalidArgument msg, []).
Proof.
  split; [ discriminate | ].
  apply (type_mismatch_rejected_before_device_work
           friendly 1 roomy (mkAnyBuffer F32 [2; 3; 3] 1000)
           (mkAnyBuffer F64 [2; 3; 3] 2000) pivots infos 2 []).
  simpl. discriminate.
Defined.

(** Claim C6.  When the rows or the cols of the input exceed the 32-bit
    signed range, the dispatch returns [InvalidArgument] and logs nothing;
    for a supported element type, under the batched as under the looped
    strategy, the error is the one of the overflow-checked cast of rows or
    of cols. *)
Theorem dimension_overflow_rejected
    (be : Backend) (stream : gpuStream_t) (scratch : ScratchAllocator)
    (a out : AnyBuffer) (ipiv info : BufferS32) (fuel : nat) (tr : Trace)
    (batch rows cols : Z) :
  SplitBatch2D (dimensions a) = inr (batch, rows, cols) ->
  INT_MAX < rows \/ INT_MAX < cols ->
  exists msg,
    GetrfDispatch be stream scratch a out ipiv info fuel tr
    = Some (mkError kInvalidArgument msg, tr) /\
    (element_type a = element_type out ->
     supported (element_type a) <> None ->
     exists v st,
       (v = rows \/ v = cols) /\
       MaybeCastNoOverflow_int v = inl st /\
       mkError kInvalidArgument msg = AsFfiError st).
Proof.
  intros Hs Hover.
  destruct (DataType_eq_dec (element_type a) (element_type out)) as [Ht | Ht].
  2:{ eexists. split; [ apply dispatch_type_mismatch; exact Ht | ].
      intros Ht'. contradiction. }
  destruct (supported (element_type a)) as [T | ] eqn:Hsup.
  2:{ eexists. split; [ eapply dispatch_unsupported; eassumption | ].
      intros _ Hn. contradiction. }
  rewrite (dispatch_supported _ _ _ _ _ _ _ _ T batch rows cols tr Ht Hs Hsup).
  destruct ((1 <? batch) && (rows =? cols) && (int64_div rows batch <=? 128))
    eqn:Hc.
  - apply batched_condition_test in Hc. destruct Hc as (_ & Heq & _).
    assert (Hn : ~ fits_int cols) by (unfold fits_int; lia).
    destruct (MaybeCastNoOverflow_int_overflow cols Hn) as ([c m] & Hst & Hcode).
    cbn in Hcode. subst c.
    exists m. split.
    + apply GetrfBatchedImpl_overflow with (st := mkStatus kInvalidArgument m).
      exact Hst.
    + intros _ _. exists cols, (mkStatus kInvalidArgument m). auto.
  - destruct (Z_le_gt_dec rows INT_MAX) as [Hle | Hgt].
    + assert (Hn : ~ fits_int cols) by (unfold fits_int; lia).
      destruct (MaybeCastNoOverflow_int_overflow cols Hn) as ([c m] & Hst & Hcode).
      cbn in Hcode. subst c.
      destruct (Z_le_gt_dec INT_MIN rows) as [Hlo | Hlo].
      * exists m. split.
        -- apply GetrfImpl_overflow_cols with (st := mkStatus kInvalidArgument m);
             [ split; assumption | exact Hst ].
        -- intros _ _. exists cols, (mkStatus kInvalidArgument m). auto.
      * assert (Hn' : ~ fits_int rows) by (unfold fits_int; lia).
        destruct (MaybeCastNoOverflow_int_overflow rows Hn')
          as ([c' m'] & Hst' & Hcode').
        cbn in Hcode'. subst c'.
        exists m'. split.
        -- apply GetrfImpl_overflow_rows with (st := mkStatus kInvalidArgument m').
           exact Hst'.
        -- intros _ _. exists rows, (mkStatus kInvalidArgument m'). auto.
    + assert (Hn' : ~ fits_int rows) by (unfold fits_int; lia).
      destruct (MaybeCastNoOverflow_int_overflow rows Hn')
        as ([c' m'] & Hst' & Hcode').
      cbn in Hcode'. subst c'.
      exists m'. split.
      * apply GetrfImpl_overflow_rows with (st := mkStatus kInvalidArgument m').
        exact Hst'.
      * intros _ _. exists rows, (mkStatus kInvalidArgument m'). auto.
Qed.

Lemma dimension_overflow_rejected_witness :
  exists msg,
    GetrfDispatch friendly 1 roomy
                  (mkAnyBuffer F32 [1; 2147483648; 1] 1000)
                  (mkAnyBuffer F32 [1; 2147483648; 1] 2000) pivots infos 2 []
    = Some (mkError kInvalidArgument msg, []) /\
    (F32 = F32 ->
     supported F32 <> None ->
     exists v st,
       (v = 2147483648 \/ v = 1) /\
       MaybeCastNoOverflow_int v = inl st /\
       mkError kInvalidArgument msg = AsFfiError st).
Proof.
  apply (dimension_overflow_rejected
           friendly 1 roomy (mkAnyBuffer F32 [1; 2147483648; 1] 1000)
           (mkAnyBuffer F32 [1; 2147483648; 1] 2000) pivots infos 2 []
           1 2147483648 1).
  - reflexivity.
  - left. reflexivity.
Defined.

(** Claim C1.  For an input that passes validation (the output has the
    same, supported, element type and the dimensions decompose into batch,
    rows and cols), the dispatcher runs [GetrfBatchedImpl] when batch > 1,
    rows = cols and rows / batch <= 128, and runs [GetrfImpl] on every
    other shape. *)
Theorem dispatcher_selects_strategy
    (be : Backend) (stream : gpuStream_t) (scratch : ScratchAllocator)
    (a out : AnyBuffer) (ipiv info : BufferS32) (fuel : nat)
    (T : ElemType) (batch rows cols : Z) :
  element_type a = element_type out ->
  supported (element_type a) = Some T ->
  SplitBatch2D (dimensions a) = inr (batch, rows, cols) ->
  (batched_condition batch rows cols ->
   forall tr,
     GetrfDispatch be stream scratch a out ipiv info fuel tr
     = GetrfBatchedImpl be T batch cols stream scratch a out ipiv info tr) /\
  (~ batched_condition batch rows cols ->
   forall tr,
     GetrfDispatch be stream scratch a out ipiv info fuel tr
     = GetrfImpl be T batch rows cols stream scratch a out ipiv info fuel tr).
Proof.
  intros Ht Hsup Hs. split; intros Hc tr;
    rewrite (dispatch_supported _ _ _ _ _ _ _ _ T batch rows cols tr Ht Hs Hsup).
  - apply batched_condition_test in Hc. rewrite Hc. reflexivity.
  - apply batched_condition_test_false in Hc. rewrite Hc. reflexivity.
Qed.

Lemma dispatcher_selects_strategy_witness :
  batched_condition 4 512 512 /\
  forall tr,
    GetrfDispatch friendly 1 roomy
                  (mkAnyBuffer F64 [4; 512; 512] 1000)
                  (mkAnyBuffer F64 [4; 512; 512] 2000) pivots infos 4 tr
    = GetrfBatchedImpl friendly T_double 4 512 1 roomy
                  (mkAnyBuffer F64 [4; 512; 512] 1000)
                  (mkAnyBuffer F64 [4; 512; 512] 2000) pivots infos tr.
Proof.
  assert (Hc : batched_condition 4 512 512).
  { unfold batched_condition.
    split; [ lia | split; [ reflexivity | vm_compute; discriminate ] ]. }
  split; [ exact Hc | ].
  apply (dispatcher_selects_strategy
           friendly 1 roomy (mkAnyBuffer F64 [4; 512; 512] 1000)
           (mkAnyBuffer F64 [4; 512; 512] 2000) pivots infos 4
           T_double 4 512 512); [ reflexivity | reflexivity | reflexivity | exact Hc ].
Defined.

(** ** The error codes *)

Lemma SplitBatch2D_error (dims : list Z) (st : Status) :
  SplitBatch2D dims = inl st -> status_code st = kInvalidArgument.
Proof.
  unfold SplitBatch2D. destruct (rev dims) as [ | c [ | r l]];
    intros H; try discriminate H; injection H as <-; reflexivity.
Qed.

Ltac use_loop_inv :=
  match goal with
  | H : GetrfImpl_loop _ _ _ _ _ _ _ _ _ _ _ _ _ _ = Some _ |- _ =>
      apply loop_inv in H;
      [ destruct H as (?runs & ?Htr & ?Hruns & ?Hleft)
      | unfold fits_int, INT_MIN, INT_MAX; lia ]
  end.

Section Codes.

Variables (be : Backend) (T : ElemType) (batch rows cols : Z).
Variables (stream : gpuStream_t) (scratch : ScratchAllocator).
Variables (a out : AnyBuffer) (ipiv info : BufferS32).

Lemma GetrfBatchedImpl_returns (tr : Trace) :
  GetrfBatchedImpl be T batch cols stream scratch a out ipiv info tr <> None.
Proof.
  intros H. unfold GetrfBatchedImpl, GetrfBatchedImpl_body in H.
  run_device H.
Qed.

Lemma GetrfBatchedImpl_codes (tr : Trace) (e : Error) (tr' : Trace) :
  GetrfBatchedImpl be T batch cols stream scratch a out ipiv info tr
  = Some (e, tr') ->
  layer_code (code e).
Proof.
  intros H. unfold GetrfBatchedImpl, GetrfBatchedImpl_body in H.
  run_device H; unfold layer_code; cbn; auto.
Qed.

Lemma GetrfImpl_codes (fuel : nat) (tr : Trace) (e : Error) (tr' : Trace) :
  GetrfImpl be T batch rows cols stream scratch a out ipiv info fuel tr
  = Some (e, tr') ->
  layer_code (code e).
Proof.
  intros H. unfold GetrfImpl, GetrfImpl_body in H.
  run_device H; try use_loop_inv; unfold layer_code; cbn; intuition auto.
Qed.

Lemma GetrfImpl_returns (fuel : nat) (tr : Trace) :
  batch <= INT_MAX -> batch <= Z.of_nat fuel ->
  GetrfImpl be T batch rows cols stream scratch a out ipiv info fuel tr <> None.
Proof.
  intros Hb Hf H. unfold GetrfImpl, GetrfImpl_body in H.
  run_device H.
  all: match goal with
       | H : GetrfImpl_loop _ _ _ _ _ _ _ _ _ _ _ _ _ _ = None |- _ =>
           revert H; apply loop_returns;
           unfold fits_int, INT_MIN, INT_MAX in *; lia
       end.
Qed.

End Codes.

(** Claim C4.  Whatever the input and whatever fails, a dispatch that
    returns carries the code of success, [InvalidArgument] or [Unknown],
    and no other code; and the dispatch does return, unless the fuel given
    to the loop of the looped strategy is below the batch count or the
    batch count is above [INT_MAX]. *)
Theorem only_two_error_codes
    (be : Backend) (stream : gpuStream_t) (scratch : ScratchAllocator)
    (a out : AnyBuffer) (ipiv info : BufferS32) (fuel : nat) (tr : Trace) :
  match GetrfDispatch be stream scratch a out ipiv info fuel tr with
  | Some (e, _) => layer_code (code e)
  | None =>
      exists batch rows cols,
        SplitBatch2D (dimensions a) = inr (batch, rows, cols) /\
        (Z.of_nat fuel < batch \/ INT_MAX < batch)
  end.
Proof.
  destruct (DataType_eq_dec (element_type a) (element_type out)) as [Ht | Ht].
  2:{ rewrite dispatch_type_mismatch by exact Ht. right. left. reflexivity. }
  destruct (SplitBatch2D (dimensions a)) as [st | [[batch rows] cols]] eqn:Hs.
  { rewrite (dispatch_split_failure _ _ _ _ _ _ _ _ st tr Ht Hs).
    right. left. cbn. eapply SplitBatch2D_error. exact Hs. }
  destruct (supported (element_type a)) as [T | ] eqn:Hsup.
  2:{ rewrite (dispatch_unsupported _ _ _ _ _ _ _ _ batch rows cols tr Ht Hs Hsup).
      right. left. reflexivity. }
  rewrite (dispatch_supported _ _ _ _ _ _ _ _ T batch rows cols tr Ht Hs Hsup).
  destruct ((1 <? batch) && (rows =? cols) && (int64_div rows batch <=? 128)).
  - destruct (GetrfBatchedImpl _ _ _ _ _ _ _ _ _ _ tr) as [[e tr'] | ] eqn:H.
    + eapply GetrfBatchedImpl_codes. exact H.
    + exfalso. revert H. apply GetrfBatchedImpl_returns.
  - destruct (GetrfImpl _ _ _ _ _ _ _ _ _ _ _ _ tr) as [[e tr'] | ] eqn:H.
    + eapply GetrfImpl_codes. exact H.
    + exists batch, rows, cols. split; [ reflexivity | ].
      destruct (Z_lt_le_dec (Z.of_nat fuel) batch) as [Hf | Hf]; [ left; exact Hf | ].
      destruct (Z_lt_le_dec INT_MAX batch) as [Hb | Hb]; [ right; exact Hb | ].
      exfalso. revert H. apply GetrfImpl_returns; assumption.
Qed.

(** ** What the two strategies log *)

Lemma looped_runs_is_run (T : ElemType) (h m n ws lwork : Z) (runs : list Event) :
  forall o p f,
    looped_runs T h m n ws lwork o p f runs ->
    Forall (fun ev => is_run ev = true) runs.
Proof.
  induction runs as [ | ev runs IH]; intros o p f H.
  - constructor.
  - destruct H as [(st & ic & ->) Hrest]. constructor; [ reflexivity | ].
    eapply IH. exact Hrest.
Qed.

Lemma looped_runs_in (T : ElemType) (h m n ws lwork o p f : Z)
    (runs : list Event) (ev : Event) :
  looped_runs T h m n ws lwork o p f runs ->
  In ev runs ->
  exists k st ic,
    ev = GetrfRun T h m n (o + Z.of_nat k * (sizeof T * int_mul m n)) m ws lwork
                  (p + Z.of_nat k * (sizeof_int * Z.min m n))
                  (f + Z.of_nat k * sizeof_int) st ic.
Proof.
  intros Hruns Hin. apply In_nth_error in Hin. destruct Hin as [k Hk].
  exists k. eapply looped_runs_nth; eassumption.
Qed.

Lemma negb_eqb_true (x y : Z) : negb (x =? y) = true -> x <> y.
Proof. rewrite negb_true_iff. apply Z.eqb_neq. Qed.

Lemma negb_eqb_false (x y : Z) : negb (x =? y) = false -> x = y.
Proof. rewrite negb_false_iff. apply Z.eqb_eq. Qed.

(** An event of a log, one concrete entry after the other. *)
Ltac in_log H :=
  repeat (apply in_app_or in H; destruct H as [H | H]);
  cbn [In app] in H;
  repeat match type of H with
         | _ \/ _ => destruct H as [H | H]
         | False => contradiction
         end.

Ltac same_buffers :=
  repeat match goal with
         | H : negb (_ =? _) = true |- _ => apply negb_eqb_true in H
         | H : negb (_ =? _) = false |- _ => apply negb_eqb_false in H
         end.

Section Logs.

Variables (be : Backend) (T : ElemType) (batch rows cols : Z).
Variables (stream : gpuStream_t) (scratch : ScratchAllocator).
Variables (a out : AnyBuffer) (ipiv info : BufferS32).

Local Abbreviation batched :=
  (GetrfBatchedImpl be T batch cols stream scratch a out ipiv info).
Local Abbreviation looped :=
  (GetrfImpl be T batch rows cols stream scratch a out ipiv info).

(** *** The batched strategy is written with [cols] only *)

Lemma batched_log (e : Error) (tr' : Trace) :
  batched [] = Some (e, tr') ->
  Forall (batched_event T batch cols stream a out ipiv info) tr'.
Proof.
  intros H. unfold GetrfBatchedImpl, GetrfBatchedImpl_body in H.
  run_device H; cbn [app]; repeat constructor.
Qed.

End Logs.

(** ** The copy comes first *)

Lemma copy_first_before (the_copy : Event -> Prop) (tr : Trace) :
  (forall ev, the_copy ev -> factorization_call ev = false) ->
  copy_first the_copy tr ->
  forall pre ev post,
    tr = pre ++ ev :: post ->
    factorization_call ev = true ->
    exists c, the_copy c /\ In c pre.
Proof.
  intros Hcopy H. induction H as [ | c rest Hc | ev0 rest Hev0 Hrest IH];
    intros pre ev post Heq Hev.
  - destruct pre; discriminate Heq.
  - destruct pre as [ | x pre]; cbn in Heq; injection Heq as <- Hrest.
    + apply Hcopy in Hc. congruence.
    + exists c. split; [ exact Hc | left; reflexivity ].
  - destruct pre as [ | x pre]; cbn in Heq; injection Heq as <- Heq.
    + congruence.
    + destruct (IH _ _ _ Heq Hev) as (c & Hc & Hin).
      exists c. split; [ exact Hc | right; exact Hin ].
Qed.

Lemma payload_copy_is_no_factorization (a out : AnyBuffer) (bytes : Z)
    (stream : gpuStream_t) (ev : Event) :
  payload_copy a out bytes stream ev -> factorization_call ev = false.
Proof. intros [st ->]. reflexivity. Qed.

Ltac copy_first_log :=
  cbn [app];
  repeat first
    [ apply copy_first_nil
    | apply copy_first_copy; eexists; reflexivity
    | apply copy_first_other; [ reflexivity | ] ].

Section Copies.

Variables (be : Backend) (T : ElemType) (batch rows cols : Z).
Variables (stream : gpuStream_t) (scratch : ScratchAllocator).
Variables (a out : AnyBuffer) (ipiv info : BufferS32).

Local Abbreviation batched :=
  (GetrfBatchedImpl be T batch cols stream scratch a out ipiv info).
Local Abbreviation looped :=
  (GetrfImpl be T batch rows cols stream scratch a out ipiv info).

Lemma batched_same_buffer (e : Error) (tr' : Trace) :
  batched [] = Some (e, tr') ->
  untyped_data a = untyped_data out ->
  Forall (fun ev => is_copy ev = false) tr'.
Proof.
  intros H Hsame. unfold GetrfBatchedImpl, GetrfBatchedImpl_body in H.
  run_device H; same_buffers; try congruence; cbn [app]; repeat constructor.
Qed.

Lemma batched_copy_first (e : Error) (tr' : Trace) :
  batched [] = Some (e, tr') ->
  untyped_data a <> untyped_data out ->
  copy_first (payload_copy a out (to_size_t (sizeof T * batch * cols * cols))
                           stream) tr' /\
  (e = Success ->
   exists c,
     payload_copy a out (to_size_t (sizeof T * batch * cols * cols)) stream c /\
     In c tr').
Proof.
  intros H Hdiff. unfold GetrfBatchedImpl, GetrfBatchedImpl_body in H.
  run_device H; same_buffers; try congruence;
    (split; [ copy_first_log | ]); intros He; try discriminate He.
  eexists. split; [ eexists; reflexivity | ]. cbn. auto.
Qed.

Lemma looped_same_buffer (fuel : nat) (e : Error) (tr' : Trace) :
  looped fuel [] = Some (e, tr') ->
  untyped_data a = untyped_data out ->
  Forall (fun ev => is_copy ev = false) tr'.
Proof.
  intros H Hsame. unfold GetrfImpl, GetrfImpl_body in H.
  run_device H; try use_loop_inv; subst; same_buffers; try congruence;
    rewrite ?Forall_app; repeat split; cbn [app]; repeat constructor.
  all: match goal with
       | Hr : looped_runs _ _ _ _ _ _ _ _ _ ?runs |- Forall _ ?runs =>
           apply looped_runs_is_run in Hr;
           eapply Forall_impl; [ | exact Hr ];
           intros [ ]; cbn; congruence
       end.
Qed.

Lemma looped_copy_first (fuel : nat) (e : Error) (tr' : Trace) :
  looped fuel [] = Some (e, tr') ->
  untyped_data a <> untyped_data out ->
  copy_first (payload_copy a out (to_size_t (sizeof T * batch * rows * cols))
                           stream) tr' /\
  (e = Success ->
   exists c,
     payload_copy a out (to_size_t (sizeof T * batch * rows * cols)) stream c /\
     In c tr').
Proof.
  intros H Hdiff. unfold GetrfImpl, GetrfImpl_body in H.
  run_device H; try use_loop_inv; subst; same_buffers; try congruence;
    (split; [ copy_first_log | ]); intros He; try discriminate He.
  - destruct Hleft as [Hcode _]. rewrite He in Hcode. discriminate Hcode.
  - eexists. split; [ eexists; reflexivity | ].
    apply in_or_app. left. cbn. auto.
Qed.

End Copies.

(** ** Collaborators that succeed *)

(** A branch of the code taken on a failure that the collaborators never
    report. *)
Ltac never_fails :=
  exfalso;
  match goal with
  | Hall : (forall tr s, solver_handle ?be tr s <> None),
    H : solver_handle ?be _ _ = None |- _ => exact (Hall _ _ H)
  | Hall : (forall tr s, blas_handle ?be tr s <> None),
    H : blas_handle ?be _ _ = None |- _ => exact (Hall _ _ H)
  | Hall : (forall tr bytes, Allocate_answer ?s tr bytes <> None),
    H : Allocate_answer ?s _ _ = None |- _ => exact (Hall _ _ H)
  | Hall : (forall tr T h m n, fst (getrf_bufferSize ?be tr T h m n) = gpuSuccess),
    H : getrf_bufferSize ?be ?tr ?T ?h ?m ?n = (gpuFailure _, _) |- _ =>
      specialize (Hall tr T h m n); rewrite H in Hall; discriminate Hall
  | Hall : (forall tr dst src bytes s, memcpy_status ?be tr dst src bytes s = gpuSuccess),
    H : memcpy_status ?be _ _ _ _ _ = gpuFailure _ |- _ =>
      rewrite Hall in H; discriminate H
  | Hall : (forall tr, last_error ?be tr = gpuSuccess),
    H : last_error ?be _ = gpuFailure _ |- _ =>
      rewrite Hall in H; discriminate H
  | Hall : (forall tr T h n p b, fst (getrfBatched ?be tr T h n p b) = gpuSuccess),
    H : getrfBatched ?be ?tr ?T ?h ?n ?p ?b = (gpuFailure _, _) |- _ =>
      specialize (Hall tr T h n p b); rewrite H in Hall; discriminate Hall
  | Hall : (forall tr T h m n p, fst (getrf ?be tr T h m n p) = gpuSuccess),
    H : GetrfImpl_loop ?be _ _ _ _ _ _ _ _ _ _ _ _ _ = Some (inl _, _) |- _ =>
      revert H; apply loop_no_failure; intros; apply Hall
  | Hfit : fits_int ?v, H : fits_intb ?v = false |- _ =>
      apply fits_intb_false in H; exact (H Hfit)
  end.

Section Success.

Variables (be : Backend) (T : ElemType) (batch rows cols : Z).
Variables (stream : gpuStream_t) (scratch : ScratchAllocator).
Variables (a out : AnyBuffer) (ipiv info : BufferS32).

Hypothesis Hsetup : setup_succeeds be scratch.
Hypothesis Hcalls : calls_go_through be.

Local Abbreviation batched :=
  (GetrfBatchedImpl be T batch cols stream scratch a out ipiv info).
Local Abbreviation looped :=
  (GetrfImpl be T batch rows cols stream scratch a out ipiv info).

(** The batched strategy completes; the batched [Run] is given the batch
    count converted to [int]. *)
Lemma batched_success :
  fits_int cols ->
  exists tr' h ws st ics,
    batched [] = Some (Success, tr') /\
    In (MakeBatchPointers stream (untyped_data out) ws batch
                          (to_size_t (sizeof T * cols * cols))) tr' /\
    In (GetrfBatchedRun T h cols ws cols (typed_data ipiv) (typed_data info)
                        (to_int batch) st ics) tr'.
Proof.
  intros Hc.
  destruct Hsetup as (Hsolver & Hblas & Hsize & Halloc).
  destruct Hcalls as (Hcopy & Hrun & Hlast & Hbatched).
  destruct (batched []) as [[e tr'] | ] eqn:H;
    [ | exfalso; revert H; apply GetrfBatchedImpl_returns ].
  unfold GetrfBatchedImpl, GetrfBatchedImpl_body in H.
  run_device H; try never_fails;
    do 5 eexists; (split; [ reflexivity | ]); cbn [app In]; split; eauto 8.
Qed.

(** The looped strategy completes when the batch count is in the range
    of the loop index, after one [Run] per matrix. *)
Lemma looped_success (fuel : nat) :
  fits_int rows -> fits_int cols ->
  batch <= INT_MAX -> batch <= Z.of_nat fuel ->
  exists tr' h ws lwork runs,
    looped fuel [] = Some (Success, tr') /\
    (exists pre, tr' = pre ++ runs /\
                 Forall (fun ev => is_run ev = false) pre) /\
    looped_runs T h rows cols ws lwork (untyped_data out) (typed_data ipiv)
                (typed_data info) runs /\
    Z.of_nat (length runs) = Z.max 0 batch.
Proof.
  intros Hr Hc Hb Hf.
  destruct Hsetup as (Hsolver & Hblas & Hsize & Halloc).
  destruct Hcalls as (Hcopy & Hrun & Hlast & Hbatched).
  destruct (looped fuel []) as [[e tr'] | ] eqn:H;
    [ | exfalso; revert H; apply GetrfImpl_returns; assumption ].
  unfold GetrfImpl, GetrfImpl_body in H.
  run_device H; try never_fails; use_loop_inv; subst;
    destruct Hleft as [Hlen _]; rewrite Z.sub_0_r in Hlen;
    do 5 eexists; (split; [ reflexivity | ]);
    (split; [ eexists; split; [ reflexivity | cbn [app]; repeat constructor ] | ]);
    split; eassumption.
Qed.

End Success.

(** ** A batch count above [INT_MAX] *)

Section LargeBatch.

Variables (be : Backend) (T : ElemType) (batch rows cols : Z).
Variables (stream : gpuStream_t) (scratch : ScratchAllocator).
Variables (a out : AnyBuffer) (ipiv info : BufferS32).

Lemma batched_accepts_any_batch (e : Error) (tr' : Trace) :
  fits_int cols ->
  GetrfBatchedImpl be T batch cols stream scratch a out ipiv info []
  = Some (e, tr') ->
  code e <> kInvalidArgument.
Proof.
  intros Hc H. unfold GetrfBatchedImpl, GetrfBatchedImpl_body in H.
  run_device H; try never_fails; cbn; discriminate.
Qed.

Lemma looped_accepts_any_batch (fuel : nat) (e : Error) (tr' : Trace) :
  fits_int rows -> fits_int cols ->
  GetrfImpl be T batch rows cols stream scratch a out ipiv info fuel []
  = Some (e, tr') ->
  code e <> kInvalidArgument.
Proof.
  intros Hr Hc H. unfold GetrfImpl, GetrfImpl_body in H.
  run_device H; try never_fails; try use_loop_inv; cbn; try discriminate.
  all: destruct Hleft as [Hcode _]; rewrite Hcode; discriminate.
Qed.

End LargeBatch.

(** ** The dispatcher, case by case *)

Section Cases.

Variables (be : Backend) (stream : gpuStream_t) (scratch : ScratchAllocator).
Variables (a out : AnyBuffer) (ipiv info : BufferS32) (fuel : nat).

Local Abbreviation dispatch :=
  (GetrfDispatch be stream scratch a out ipiv info fuel).

Lemma dispatch_strategy (T : ElemType) (batch rows cols : Z) :
  element_type a = element_type out ->
  supported (element_type a) = Some T ->
  SplitBatch2D (dimensions a) = inr (batch, rows, cols) ->
  (batched_condition batch rows cols /\
   forall tr,
     dispatch tr
     = GetrfBatchedImpl be T batch cols stream scratch a out ipiv info tr) \/
  (~ batched_condition batch rows cols /\
   forall tr,
     dispatch tr
     = GetrfImpl be T batch rows cols stream scratch a out ipiv info fuel tr).
Proof.
  intros Ht Hsup Hs.
  destruct ((1 <? batch) && (rows =? cols) && (int64_div rows batch <=? 128))
    eqn:Hc; [ left | right ].
  - split; [ apply batched_condition_test; exact Hc | ]. intros tr.
    rewrite (dispatch_supported _ _ _ _ _ _ _ _ T batch rows cols tr Ht Hs Hsup).
    rewrite Hc. reflexivity.
  - split; [ apply batched_condition_test_false; exact Hc | ]. intros tr.
    rewrite (dispatch_supported _ _ _ _ _ _ _ _ T batch rows cols tr Ht Hs Hsup).
    rewrite Hc. reflexivity.
Qed.

Lemma dispatch_inv (tr : Trace) (e : Error) (tr' : Trace) :
  dispatch tr = Some (e, tr') ->
  (tr' = tr /\ code e = kInvalidArgument) \/
  (exists T batch rows cols,
      SplitBatch2D (dimensions a) = inr (batch, rows, cols) /\
      (GetrfBatchedImpl be T batch cols stream scratch a out ipiv info tr
       = Some (e, tr') \/
       GetrfImpl be T batch rows cols stream scratch a out ipiv info fuel tr
       = Some (e, tr'))).
Proof.
  intros H.
  destruct (DataType_eq_dec (element_type a) (element_type out)) as [Ht | Ht].
  2:{ rewrite dispatch_type_mismatch in H by exact Ht.
      injection H as <- <-. left. split; reflexivity. }
  destruct (SplitBatch2D (dimensions a)) as [st | [[batch rows] cols]] eqn:Hs.
  { rewrite (dispatch_split_failure _ _ _ _ _ _ _ _ st tr Ht Hs) in H.
    injection H as <- <-. left. split; [ reflexivity | ].
    eapply SplitBatch2D_error. exact Hs. }
  destruct (supported (element_type a)) as [T | ] eqn:Hsup.
  2:{ rewrite (dispatch_unsupported _ _ _ _ _ _ _ _ batch rows cols tr Ht Hs Hsup)
        in H.
      injection H as <- <-. left. split; reflexivity. }
  right. exists T, batch, rows, cols. split; [ reflexivity | ].
  destruct (dispatch_strategy T batch rows cols Ht Hsup Hs) as [[_ Hd] | [_ Hd]];
    rewrite Hd in H; auto.
Qed.

End Cases.

(** ** The claims on the logs *)

(** Claim C3, as it stands, fails on the looped strategy: the allocator
    answers with nothing, the dispatch returns [Unknown], and a call into
    the vendor library, the workspace-size query, has been made. *)
Lemma allocation_failure_after_backend_query :
  GetrfDispatch friendly 1 exhausted
                (mkAnyBuffer F64 [3; 4] 1000) (mkAnyBuffer F64 [3; 4] 1000)
                pivots infos 1 []
  = Some (mkError kUnknown "Unable to allocate workspace for getrf",
          [SolverBorrow 1 (Some 7);
           BufferSizeQuery T_double 7 3 4 3 gpuSuccess 16;
           ScratchAllocate 128 None]) /\
  vendor_call (BufferSizeQuery T_double 7 3 4 3 gpuSuccess 16) = true.
Proof. split; reflexivity. Qed.

(** Claim C2, as it stands, fails: this dispatch of two 2x3 matrices gets
    past validation, handle borrowing and scratch allocation, the first
    factorization call does not go through, and the dispatch returns
    [Unknown] without a call for the second matrix. *)
Lemma backend_failure_aborts_the_batch :
  GetrfDispatch broken_solver 1 roomy
                (mkAnyBuffer F32 [2; 2; 3] 1000) (mkAnyBuffer F32 [2; 2; 3] 1000)
                pivots infos 2 []
  = Some (mkError kUnknown "getrf: execution failed",
          [SolverBorrow 1 (Some 7);
           BufferSizeQuery T_float 7 2 3 2 gpuSuccess 16;
           ScratchAllocate 64 (Some 4096);
           GetrfRun T_float 7 2 3 1000 2 4096 16 3000 4000
                    (gpuFailure "getrf: execution failed") 0]) /\
  mkError kUnknown "getrf: execution failed" <> Success /\
  ~ matrix_factorized T_float 1 (mkAnyBuffer F32 [2; 2; 3] 1000) pivots infos
      2 2 3 1
      [SolverBorrow 1 (Some 7);
       BufferSizeQuery T_float 7 2 3 2 gpuSuccess 16;
       ScratchAllocate 64 (Some 4096);
       GetrfRun T_float 7 2 3 1000 2 4096 16 3000 4000
                (gpuFailure "getrf: execution failed") 0].
Proof.
  split; [ reflexivity | ]. split; [ discriminate | ].
  intros [(h & ws & lwork & st & ic & Hin) | (Hsq & _)]; [ | discriminate Hsq ].
  cbn in Hin.
  repeat (destruct Hin as [Hin | Hin]; try discriminate Hin); contradiction.
Qed.

(** Claim C2, amended.  For a dispatch that gets past validation, whose
    batch count and rows * cols fit an [int], and whose collaborators
    succeed (handle borrowing, workspace query, scratch allocation, and
    every call into the runtime and the vendor libraries reports success),
    the dispatch returns success and every matrix of the batch has been
    handed to a factorization call at its place in the output, pivot and
    info arrays, whatever info codes the factorizations report. *)
Theorem every_matrix_is_factorized
    (be : Backend) (stream : gpuStream_t) (scratch : ScratchAllocator)
    (a out : AnyBuffer) (ipiv info : BufferS32) (fuel : nat)
    (T : ElemType) (batch rows cols : Z) :
  element_type a = element_type out ->
  supported (element_type a) = Some T ->
  SplitBatch2D (dimensions a) = inr (batch, rows, cols) ->
  fits_int rows -> fits_int cols -> fits_int (rows * cols) ->
  batch <= INT_MAX -> batch <= Z.of_nat fuel ->
  setup_succeeds be scratch -> calls_go_through be ->
  exists tr',
    GetrfDispatch be stream scratch a out ipiv info fuel [] = Some (Success, tr') /\
    forall k,
      0 <= k < batch ->
      matrix_factorized T stream out ipiv info batch rows cols k tr'.
Proof.
  intros Ht Hsup Hs Hr Hc Hrc Hb Hf Hsetup Hcalls.
  destruct (dispatch_strategy be stream scratch a out ipiv info fuel
              T batch rows cols Ht Hsup Hs) as [[Hcond Hd] | [Hcond Hd]];
    rewrite Hd.
  - destruct Hcond as (Hb1 & Heq & _). subst cols.
    destruct (batched_success be T batch rows stream scratch a out ipiv info
                Hsetup Hcalls Hc)
      as (tr' & h & ws & st & ics & Hrun & Hptrs & Hbatched).
    exists tr'. split; [ exact Hrun | ]. intros k Hk. right.
    split; [ reflexivity | ]. exists h, ws, st, ics.
    rewrite to_int_fits in Hbatched
      by (unfold fits_int, INT_MIN, INT_MAX in *; lia).
    replace (sizeof T * rows * rows) with (sizeof T * (rows * rows))
      in Hptrs by ring.
    rewrite to_size_t_small in Hptrs.
    + split; assumption.
    + unfold fits_int, INT_MIN, INT_MAX in Hrc.
      destruct T; cbn [sizeof]; nia.
  - destruct (looped_success be T batch rows cols stream scratch a out ipiv info
                Hsetup Hcalls fuel Hr Hc Hb Hf)
      as (tr' & h & ws & lwork & runs & Hrun & (pre & -> & _) & Hruns & Hlen).
    exists (pre ++ runs). split; [ exact Hrun | ]. intros k Hk. left.
    destruct (nth_error runs (Z.to_nat k)) as [ev | ] eqn:Hnth.
    2:{ apply nth_error_None in Hnth. lia. }
    destruct (looped_runs_nth _ _ _ _ _ _ _ _ _ _ _ _ Hruns Hnth)
      as (st & ic & ->).
    apply nth_error_In in Hnth.
    exists h, ws, lwork, st, ic. apply in_or_app. right.
    unfold int_mul in Hnth. rewrite (to_int_fits _ Hrc) in Hnth.
    rewrite Z2Nat.id in Hnth by lia.
    replace (untyped_data out + sizeof T * (k * (rows * cols)))
      with (untyped_data out + k * (sizeof T * (rows * cols))) by ring.
    replace (typed_data ipiv + sizeof_int * (k * Z.min rows cols))
      with (typed_data ipiv + k * (sizeof_int * Z.min rows cols)) by ring.
    replace (typed_data info + sizeof_int * k)
      with (typed_data info + k * sizeof_int) by ring.
    exact Hnth.
Qed.

Lemma friendly_setup_succeeds : setup_succeeds friendly roomy.
Proof. repeat split; intros; cbn; discriminate. Defined.

Lemma friendly_calls_go_through : calls_go_through friendly.
Proof. repeat split. Defined.

Lemma every_matrix_is_factorized_witness :
  exists tr',
    GetrfDispatch friendly 1 roomy
                  (mkAnyBuffer F64 [3; 2; 5] 1000) (mkAnyBuffer F64 [3; 2; 5] 2000)
                  pivots infos 3 [] = Some (Success, tr') /\
    forall k,
      0 <= k < 3 ->
      matrix_factorized T_double 1 (mkAnyBuffer F64 [3; 2; 5] 2000) pivots infos
                        3 2 5 k tr'.
Proof.
  apply (every_matrix_is_factorized
           friendly 1 roomy (mkAnyBuffer F64 [3; 2; 5] 1000)
           (mkAnyBuffer F64 [3; 2; 5] 2000) pivots infos 3 T_double 3 2 5).
  - reflexivity.
  - reflexivity.
  - reflexivity.
  - unfold fits_int, INT_MIN, INT_MAX. lia.
  - unfold fits_int, INT_MIN, INT_MAX. lia.
  - unfold fits_int, INT_MIN, INT_MAX. lia.
  - unfold INT_MAX. lia.
  - simpl. lia.
  - exact friendly_setup_succeeds.
  - exact friendly_calls_go_through.
Defined.

(** Claim C8 at the input where the code misses it: two 50000 x 50000
    matrices of floats take the looped strategy, every call succeeds, and
    the second [Run] is given the output cursor moved by the [int] product
    50000 * 50000, which has wrapped to 50000 * 50000 - 2^32, and not by
    rows * cols elements; the pivot and the info cursor have moved by
    min(rows, cols) and by one element. *)
Theorem looped_cursor_wraps :
  GetrfDispatch friendly 1 roomy
                (mkAnyBuffer F32 [2; 50000; 50000] 1000)
                (mkAnyBuffer F32 [2; 50000; 50000] 1000) pivots infos 2 []
  = Some (Success,
          [SolverBorrow 1 (Some 7);
           BufferSizeQuery T_float 7 50000 50000 50000 gpuSuccess 16;
           ScratchAllocate 64 (Some 4096);
           GetrfRun T_float 7 50000 50000 1000 50000 4096 16 3000 4000
                    gpuSuccess 1;
           GetrfRun T_float 7 50000 50000
                    (1000 + sizeof T_float * (50000 * 50000 - 2 ^ 32)) 50000
                    4096 16
                    (3000 + sizeof_int * 50000) (4000 + sizeof_int)
                    gpuSuccess 1]) /\
  1000 + sizeof T_float * (50000 * 50000 - 2 ^ 32)
  <> 1000 + sizeof T_float * (50000 * 50000) /\
  int_mul 50000 50000 = 50000 * 50000 - 2 ^ 32.
Proof. split; [ reflexivity | split; [ discriminate | reflexivity ] ]. Qed.

(** ** The dispatch stops at the first failed call *)

Lemma Forall_removelast {A} (P : A -> Prop) (l : list A) :
  Forall P l -> Forall P (removelast l).
Proof.
  induction 1 as [ | x l Hx Hl IH]; [ constructor | ].
  cbn [removelast]. destruct l; [ constructor | ].
  constructor; assumption.
Qed.

Lemma Forall_removelast_app {A} (P : A -> Prop) (l l' : list A) :
  Forall P l -> Forall P (removelast l') -> Forall P (removelast (l ++ l')).
Proof.
  intros Hl Hl'. destruct l' as [ | x l'].
  - rewrite app_nil_r. apply Forall_removelast. exact Hl.
  - rewrite removelast_app by discriminate.
    apply Forall_app. split; assumption.
Qed.

Lemma failure_is_last (tr : Trace) :
  Forall (fun ev => failed ev = false) (removelast tr) ->
  forall pre ev post, tr = pre ++ ev :: post -> failed ev = true -> post = [].
Proof.
  intros Hall pre ev post -> Hev.
  destruct post as [ | x post]; [ reflexivity | exfalso ].
  rewrite removelast_app in Hall by discriminate.
  apply Forall_app in Hall. destruct Hall as [_ Hall].
  cbn [removelast] in Hall. inversion Hall; subst. congruence.
Qed.

Section LoopAnswers.

Variables (be : Backend) (T : ElemType) (handle m n workspace lwork batch : Z).

Local Abbreviation loop := (GetrfImpl_loop be T handle m n workspace lwork batch).

(** The loop is left early by the first [Run] that does not go through,
    and by nothing else. *)
Lemma loop_answers (fuel : nat) :
  forall (i o p f : Z) (tr : Trace) (r : Error + unit) (tr' : Trace),
    loop fuel i o p f tr = Some (r, tr') ->
    exists runs,
      tr' = tr ++ runs /\
      match r with
      | inr _ => Forall (fun ev => failed ev = false) runs
      | inl e =>
          e <> Success /\
          exists good bad,
            runs = good ++ [bad] /\
            Forall (fun ev => failed ev = false) good /\ failed bad = true
      end.
Proof.
  induction fuel as [ | fuel IH]; intros i o p f tr r tr' H.
  - destruct (Z_lt_le_dec i batch) as [Hlt | Hge].
    + rewrite loop_out_of_fuel in H by exact Hlt. discriminate H.
    + rewrite loop_exit in H by exact Hge. injection H as <- <-.
      exists []. rewrite app_nil_r. split; [ reflexivity | constructor ].
  - destruct (Z_lt_le_dec i batch) as [Hlt | Hge].
    + rewrite loop_step in H by exact Hlt.
      destruct (getrf be tr T handle m n o) as [[ | what] ic].
      * apply IH in H. destruct H as (runs & -> & Hr).
        eexists (_ :: runs). rewrite <- app_assoc.
        split; [ reflexivity | ].
        destruct r as [e | u].
        -- destruct Hr as (He & good & bad & -> & Hgood & Hbad).
           split; [ exact He | ].
           eexists (_ :: good), bad. split; [ reflexivity | ].
           split; [ constructor; [ reflexivity | exact Hgood ] | exact Hbad ].
        -- constructor; [ reflexivity | exact Hr ].
      * injection H as <- <-. eexists [_]. split; [ reflexivity | ].
        split; [ discriminate | ].
        eexists [], _. split; [ reflexivity | ].
        split; [ constructor | reflexivity ].
    + rewrite loop_exit in H by exact Hge. injection H as <- <-.
      exists []. rewrite app_nil_r. split; [ reflexivity | constructor ].
Qed.

End LoopAnswers.

Ltac use_loop_answers :=
  match goal with
  | H : GetrfImpl_loop _ _ _ _ _ _ _ _ _ _ _ _ _ _ = Some _ |- _ =>
      apply loop_answers in H; destruct H as (?runs & ?Htr & ?Hans)
  end.

(** Take a [Forall] over a concrete log apart. *)
Ltac forall_log H :=
  repeat (apply Forall_app in H; let H' := fresh H in destruct H as [H H']);
  repeat match goal with
         | H0 : Forall _ (_ :: _) |- _ => inversion H0; clear H0; subst
         end.

Lemma Forall_failed_snoc (good : list Event) (bad : Event) :
  failed bad = true ->
  ~ Forall (fun ev => failed ev = false) (good ++ [bad]).
Proof.
  intros Hbad H. apply Forall_app in H. destruct H as [_ H].
  inversion H; subst. congruence.
Qed.

Section Failures.

Variables (be : Backend) (T : ElemType) (batch rows cols : Z).
Variables (stream : gpuStream_t) (scratch : ScratchAllocator).
Variables (a out : AnyBuffer) (ipiv info : BufferS32).

Lemma batched_failures (e : Error) (tr' : Trace) :
  GetrfBatchedImpl be T batch cols stream scratch a out ipiv info []
  = Some (e, tr') ->
  Forall (fun ev => failed ev = false) (removelast tr') /\
  (e = Success <-> tr' <> [] /\ Forall (fun ev => failed ev = false) tr').
Proof.
  intros H. unfold GetrfBatchedImpl, GetrfBatchedImpl_body in H.
  run_device H; cbn [app removelast];
    (split; [ repeat constructor | ]);
    (split;
     [ intros He; first [ discriminate He
                        | split; [ discriminate | repeat constructor ] ]
     | intros [Hne Hall]; first [ reflexivity
                                | congruence
                                | forall_log Hall; discriminate ] ]).
Qed.

Lemma looped_failures (fuel : nat) (e : Error) (tr' : Trace) :
  GetrfImpl be T batch rows cols stream scratch a out ipiv info fuel []
  = Some (e, tr') ->
  Forall (fun ev => failed ev = false) (removelast tr') /\
  (e = Success <-> tr' <> [] /\ Forall (fun ev => failed ev = false) tr').
Proof.
  intros H. unfold GetrfImpl, GetrfImpl_body in H.
  run_device H; try use_loop_answers; subst.
  all: try match goal with
       | Ha : _ /\ (exists good bad, _) |- _ =>
           destruct Ha as (He & good & bad & -> & Hgood & Hbad);
           split;
           [ rewrite app_assoc, removelast_last;
             apply Forall_app; split;
             [ cbn [app]; repeat constructor | exact Hgood ]
           | split;
             [ intros HS; contradiction
             | intros [_ Hall]; exfalso;
               rewrite app_assoc in Hall;
               revert Hall; apply Forall_failed_snoc; exact Hbad ] ]
       | Ha : Forall _ ?runs |- _ =>
           split;
           [ apply Forall_removelast_app;
             [ cbn [app]; repeat constructor
             | apply Forall_removelast; exact Ha ]
           | split;
             [ intros _; split;
               [ cbn [app]; discriminate
               | apply Forall_app; split;
                 [ cbn [app]; repeat constructor | exact Ha ] ]
             | intros _; reflexivity ] ]
       end.
  all: cbn [app removelast];
    (split; [ repeat constructor | ]);
    (split;
     [ intros He; discriminate He
     | intros [Hne Hall];
       first [ congruence | forall_log Hall; discriminate ] ]).
Qed.

End Failures.

(** Extra X1.  A dispatch stops at the first call that fails: in its log a
    call with a failed answer (no handle, no allocation, a failure status)
    is the last call; and the dispatch returns success exactly when it has
    made calls and none of them failed. *)
Theorem dispatch_stops_at_first_failure
    (be : Backend) (stream : gpuStream_t) (scratch : ScratchAllocator)
    (a out : AnyBuffer) (ipiv info : BufferS32) (fuel : nat)
    (e : Error) (tr' : Trace) :
  GetrfDispatch be stream scratch a out ipiv info fuel [] = Some (e, tr') ->
  (forall pre ev post,
      tr' = pre ++ ev :: post -> failed ev = true -> post = []) /\
  (e = Success <->
   tr' <> [] /\ Forall (fun ev => failed ev = false) tr').
Proof.
  intros H. apply dispatch_inv in H.
  destruct H as [[-> Hcode] | (T & batch & rows & cols & _ & [H | H])].
  - split.
    + intros [ | x pre] ev post Heq; discriminate Heq.
    + split; [ intros ->; discriminate Hcode | intros [Hne _]; congruence ].
  - apply batched_failures in H. destruct H as [Hlast Hiff].
    split; [ apply failure_is_last; exact Hlast | exact Hiff ].
  - apply looped_failures in H. destruct H as [Hlast Hiff].
    split; [ apply failure_is_last; exact Hlast | exact Hiff ].
Qed.

Lemma dispatch_stops_at_first_failure_witness :
  exists e tr',
    GetrfDispatch broken_launch 1 roomy
                  (mkAnyBuffer F32 [3; 2; 2] 1000) (mkAnyBuffer F32 [3; 2; 2] 1000)
                  pivots infos 0 [] = Some (e, tr') /\
    In (GetLastError (gpuFailure "invalid configuration argument")) tr' /\
    (forall pre ev post,
        tr' = pre ++ ev :: post -> failed ev = true -> post = []) /\
    (e = Success <->
     tr' <> [] /\ Forall (fun ev => failed ev = false) tr').
Proof.
  do 2 eexists. split; [ reflexivity | ].
  split; [ simpl; auto | ].
  apply (dispatch_stops_at_first_failure
           broken_launch 1 roomy (mkAnyBuffer F32 [3; 2; 2] 1000)
           (mkAnyBuffer F32 [3; 2; 2] 1000) pivots infos 0).
  reflexivity.
Defined.

(** ** The calls of the looped strategy *)

Section LoopedCalls.

Variables (be : Backend) (T : ElemType) (batch rows cols : Z).
Variables (stream : gpuStream_t) (scratch : ScratchAllocator).
Variables (a out : AnyBuffer) (ipiv info : BufferS32).

Lemma looped_calls (fuel : nat) (e : Error) (tr' : Trace) :
  GetrfImpl be T batch rows cols stream scratch a out ipiv info fuel []
  = Some (e, tr') ->
  exists setup runs,
    tr' = setup ++ runs /\
    Forall (fun ev => is_run ev = false) setup /\
    (e = Success -> Z.of_nat (length runs) = Z.max 0 batch) /\
    (runs = [] \/
     exists h lwork ws,
       In (SolverBorrow stream (Some h)) setup /\
       In (BufferSizeQuery T h rows cols rows gpuSuccess lwork) setup /\
       In (ScratchAllocate (to_size_t (sizeof T * lwork)) (Some ws)) setup /\
       looped_runs T h rows cols ws lwork (untyped_data out)
                   (typed_data ipiv) (typed_data info) runs).
Proof.
  intros H. unfold GetrfImpl, GetrfImpl_body in H.
  run_device H; try use_loop_inv; subst.
  all: try match goal with
       | Hr : looped_runs _ _ _ _ _ _ _ _ _ ?runs |- _ =>
           eexists _, runs; split; [ reflexivity | ];
           split; [ cbn [app]; repeat constructor | ];
           split;
           [ intros He; destruct Hleft as [Hl Hm];
             first [ rewrite He in Hl; discriminate Hl
                   | rewrite Z.sub_0_r in Hl; exact Hl ]
           | right; do 3 eexists; cbn [app In];
             split; [ eauto | ]; split; [ eauto | ]; split; [ eauto 6 | ];
             exact Hr ]
       end.
  all: eexists _, []; rewrite app_nil_r;
    (split; [ reflexivity | ]);
    (split; [ cbn [app]; repeat constructor | ]);
    (split; [ intros He; discriminate He | left; reflexivity ]).
Qed.

End LoopedCalls.

(** Extra X2.  Under the looped strategy the log is the preparing calls
    followed by the [Run] calls; a successful dispatch has made exactly
    max(0, batch) of them; they all use the borrowed handle, the workspace
    the allocator returned for sizeof(T) * lwork bytes and the lwork the
    size query answered, with lda = rows; and [Run] number k is given the
    output cursor moved k times by the [int] product rows * cols, the
    pivot cursor moved k times by min(rows, cols) and the info cursor moved
    k times by one element. *)
Theorem looped_runs_walk_the_batch
    (be : Backend) (stream : gpuStream_t) (scratch : ScratchAllocator)
    (a out : AnyBuffer) (ipiv info : BufferS32) (fuel : nat)
    (T : ElemType) (batch rows cols : Z) (e : Error) (tr' : Trace) :
  element_type a = element_type out ->
  supported (element_type a) = Some T ->
  SplitBatch2D (dimensions a) = inr (batch, rows, cols) ->
  ~ batched_condition batch rows cols ->
  GetrfDispatch be stream scratch a out ipiv info fuel [] = Some (e, tr') ->
  exists setup runs,
    tr' = setup ++ runs /\
    Forall (fun ev => is_run ev = false) setup /\
    (e = Success -> Z.of_nat (length runs) = Z.max 0 batch) /\
    (runs = [] \/
     exists h lwork ws,
       In (SolverBorrow stream (Some h)) setup /\
       In (BufferSizeQuery T h rows cols rows gpuSuccess lwork) setup /\
       In (ScratchAllocate (to_size_t (sizeof T * lwork)) (Some ws)) setup /\
       forall k ev,
         nth_error runs k = Some ev ->
         exists st ic,
           ev = GetrfRun T h rows cols
                         (untyped_data out
                          + Z.of_nat k * (sizeof T * int_mul rows cols))
                         rows ws lwork
                         (typed_data ipiv
                          + Z.of_nat k * (sizeof_int * Z.min rows cols))
                         (typed_data info + Z.of_nat k * sizeof_int) st ic).
Proof.
  intros Ht Hsup Hs Hc H.
  destruct (dispatch_strategy be stream scratch a out ipiv info fuel
              T batch rows cols Ht Hsup Hs) as [[Hcond _] | [_ Hd]];
    [ contradiction | ].
  rewrite Hd in H. apply looped_calls in H.
  destruct H as (setup & runs & Htr & Hsetup & Hlen & Hruns).
  exists setup, runs. repeat (split; [ assumption | ]).
  destruct Hruns as [Hnil | (h & lwork & ws & Hh & Hq & Ha & Hr)];
    [ left; exact Hnil | right ].
  exists h, lwork, ws. repeat (split; [ assumption | ]).
  intros k ev Hk. eapply looped_runs_nth; eassumption.
Qed.

Lemma looped_runs_walk_the_batch_witness :
  exists e tr' setup runs,
    GetrfDispatch friendly 1 roomy
                  (mkAnyBuffer C128 [2; 3; 2] 1000) (mkAnyBuffer C128 [2; 3; 2] 1000)
                  pivots infos 2 [] = Some (e, tr') /\
    tr' = setup ++ runs /\
    Forall (fun ev => is_run ev = false) setup /\
    (e = Success -> Z.of_nat (length runs) = Z.max 0 2) /\
    (runs = [] \/
     exists h lwork ws,
       In (SolverBorrow 1 (Some h)) setup /\
       In (BufferSizeQuery T_double_complex h 3 2 3 gpuSuccess lwork) setup /\
       In (ScratchAllocate (to_size_t (sizeof T_double_complex * lwork))
                           (Some ws)) setup /\
       forall k ev,
         nth_error runs k = Some ev ->
         exists st ic,
           ev = GetrfRun T_double_complex h 3 2
                         (1000 + Z.of_nat k * (sizeof T_double_complex * int_mul 3 2))
                         3 ws lwork
                         (3000 + Z.of_nat k * (sizeof_int * Z.min 3 2))
                         (4000 + Z.of_nat k * sizeof_int) st ic).
Proof.
  assert (Hc : ~ batched_condition 2 3 2).
  { unfold batched_condition. intros (_ & Heq & _). discriminate Heq. }
  destruct (looped_runs_walk_the_batch
              friendly 1 roomy (mkAnyBuffer C128 [2; 3; 2] 1000)
              (mkAnyBuffer C128 [2; 3; 2] 1000) pivots infos 2
              T_double_complex 2 3 2 _ _ eq_refl eq_refl eq_refl Hc eq_refl)
    as (setup & runs & H).
  do 2 eexists. exists setup, runs. split; [ reflexivity | exact H ].
Defined.

(** ** One strategy, one library *)

Lemma filter_runs (kind : Event -> bool) (runs : list Event) :
  (forall ev, is_run ev = true -> kind ev = false) ->
  Forall (fun ev => is_run ev = true) runs ->
  filter kind runs = [].
Proof.
  intros Hk. induction 1 as [ | ev runs Hev Hruns IH]; [ reflexivity | ].
  cbn [filter]. rewrite (Hk ev Hev). exact IH.
Qed.

Lemma count_before_runs (kind : Event -> bool) (pre runs : list Event) :
  (forall ev, is_run ev = true -> kind ev = false) ->
  Forall (fun ev => is_run ev = true) runs ->
  count kind (pre ++ runs) = count kind pre.
Proof.
  intros Hk Hr. unfold count.
  rewrite filter_app, (filter_runs kind runs Hk Hr), app_nil_r. reflexivity.
Qed.

Ltac runs_are_runs :=
  match goal with
  | Hr : looped_runs _ _ _ _ _ _ _ _ _ ?runs |- _ =>
      apply looped_runs_is_run in Hr
  end.

Ltac on_stream_log :=
  repeat first
    [ apply Forall_nil
    | apply Forall_cons; [ unfold on_stream; cbn [event_stream]; auto | ] ].

Ltac count_log :=
  cbn [length filter app is_borrow is_size_query is_allocation is_copy
       is_pointer_build is_batched_run].

Section Sides.

Variables (be : Backend) (T : ElemType) (batch rows cols : Z).
Variables (stream : gpuStream_t) (scratch : ScratchAllocator).
Variables (a out : AnyBuffer) (ipiv info : BufferS32).

Lemma batched_side (e : Error) (tr' : Trace) :
  GetrfBatchedImpl be T batch cols stream scratch a out ipiv info []
  = Some (e, tr') ->
  Forall (fun ev => solver_side ev = false) tr' /\
  Forall (on_stream stream) tr' /\
  (count is_borrow tr' <= 1 /\ count is_size_query tr' <= 1 /\
   count is_allocation tr' <= 1 /\ count is_copy tr' <= 1 /\
   count is_pointer_build tr' <= 1 /\ count is_batched_run tr' <= 1)%nat.
Proof.
  intros H. unfold GetrfBatchedImpl, GetrfBatchedImpl_body in H.
  run_device H; cbn [app];
    (split; [ repeat constructor | ]);
    (split; [ on_stream_log | ]);
    unfold count; count_log; lia.
Qed.

Lemma looped_side (fuel : nat) (e : Error) (tr' : Trace) :
  GetrfImpl be T batch rows cols stream scratch a out ipiv info fuel []
  = Some (e, tr') ->
  Forall (fun ev => blas_side ev = false) tr' /\
  Forall (on_stream stream) tr' /\
  (count is_borrow tr' <= 1 /\ count is_size_query tr' <= 1 /\
   count is_allocation tr' <= 1 /\ count is_copy tr' <= 1 /\
   count is_pointer_build tr' <= 1 /\ count is_batched_run tr' <= 1)%nat.
Proof.
  intros H. unfold GetrfImpl, GetrfImpl_body in H.
  run_device H; try use_loop_inv; subst; try runs_are_runs.
  all: try match goal with
       | Hr : Forall (fun ev => is_run ev = true) ?runs |- _ =>
           split;
           [ apply Forall_app; split;
             [ cbn [app]; repeat constructor
             | eapply Forall_impl; [ | exact Hr ];
               intros [ ]; cbn; congruence ]
           | split;
             [ apply Forall_app; split;
               [ cbn [app]; on_stream_log
               | eapply Forall_impl; [ | exact Hr ];
                 intros [ ]; unfold on_stream; cbn; intros Hrun;
                 first [ discriminate Hrun | auto ] ]
             | repeat (rewrite (count_before_runs _ _ runs) by
                         (try exact Hr; intros [ ]; cbn; congruence));
               unfold count; count_log; lia ] ]
       end.
  all: cbn [app];
    (split; [ repeat constructor | ]);
    (split; [ on_stream_log | ]);
    unfold count; count_log; lia.
Qed.

End Sides.

(** Extra X3.  A dispatch works with one library only: under the batched
    condition its log holds no solver handle, no workspace-size query and
    no single-matrix [Run]; otherwise it holds no BLAS handle, no
    pointer-array build, no launch-error query and no batched [Run]. *)
Theorem one_strategy_one_library
    (be : Backend) (stream : gpuStream_t) (scratch : ScratchAllocator)
    (a out : AnyBuffer) (ipiv info : BufferS32) (fuel : nat)
    (batch rows cols : Z) (e : Error) (tr' : Trace) :
  SplitBatch2D (dimensions a) = inr (batch, rows, cols) ->
  GetrfDispatch be stream scratch a out ipiv info fuel [] = Some (e, tr') ->
  (batched_condition batch rows cols ->
   Forall (fun ev => solver_side ev = false) tr') /\
  (~ batched_condition batch rows cols ->
   Forall (fun ev => blas_side ev = false) tr').
Proof.
  intros Hs H.
  destruct (DataType_eq_dec (element_type a) (element_type out)) as [Ht | Ht].
  2:{ rewrite dispatch_type_mismatch in H by exact Ht.
      injection H as <- <-. split; constructor. }
  destruct (supported (element_type a)) as [T | ] eqn:Hsup.
  2:{ rewrite (dispatch_unsupported _ _ _ _ _ _ _ _ batch rows cols [] Ht Hs Hsup)
        in H.
      injection H as <- <-. split; constructor. }
  destruct (dispatch_strategy be stream scratch a out ipiv info fuel
              T batch rows cols Ht Hsup Hs) as [[Hc Hd] | [Hc Hd]];
    rewrite Hd in H.
  - split; [ intros _ | contradiction ].
    eapply batched_side. exact H.
  - split; [ contradiction | intros _ ].
    eapply looped_side. exact H.
Qed.

Lemma one_strategy_one_library_witness :
  exists e tr',
    GetrfDispatch friendly 1 roomy
                  (mkAnyBuffer F64 [4; 3; 3] 1000) (mkAnyBuffer F64 [4; 3; 3] 2000)
                  pivots infos 0 [] = Some (e, tr') /\
    batched_condition 4 3 3 /\
    Forall (fun ev => solver_side ev = false) tr'.
Proof.
  assert (Hc : batched_condition 4 3 3).
  { unfold batched_condition.
    split; [ lia | split; [ reflexivity | vm_compute; discriminate ] ]. }
  do 2 eexists. split; [ reflexivity | ]. split; [ exact Hc | ].
  apply (proj1 (one_strategy_one_library
                  friendly 1 roomy (mkAnyBuffer F64 [4; 3; 3] 1000)
                  (mkAnyBuffer F64 [4; 3; 3] 2000) pivots infos 0 4 3 3
                  _ _ eq_refl eq_refl)).
  exact Hc.
Defined.

(** Extra X4.  A dispatch borrows at most one handle, asks for the
    workspace size at most once, allocates scratch memory at most once,
    copies at most once, builds the pointer array at most once and calls
    the batched [Run] at most once. *)
Theorem each_resource_at_most_once
    (be : Backend) (stream : gpuStream_t) (scratch : ScratchAllocator)
    (a out : AnyBuffer) (ipiv info : BufferS32) (fuel : nat)
    (e : Error) (tr' : Trace) :
  GetrfDispatch be stream scratch a out ipiv info fuel [] = Some (e, tr') ->
  (count is_borrow tr' <= 1 /\ count is_size_query tr' <= 1 /\
   count is_allocation tr' <= 1 /\ count is_copy tr' <= 1 /\
   count is_pointer_build tr' <= 1 /\ count is_batched_run tr' <= 1)%nat.
Proof.
  intros H. apply dispatch_inv in H.
  destruct H as [[-> _] | (T & batch & rows & cols & _ & [H | H])].
  - unfold count. cbn. lia.
  - eapply batched_side. exact H.
  - eapply looped_side. exact H.
Qed.

Lemma each_resource_at_most_once_witness :
  exists e tr',
    GetrfDispatch friendly 1 roomy
                  (mkAnyBuffer F32 [3; 2; 4] 1000) (mkAnyBuffer F32 [3; 2; 4] 2000)
                  pivots infos 3 [] = Some (e, tr') /\
    count is_run tr' = 3%nat /\
    (count is_borrow tr' <= 1 /\ count is_size_query tr' <= 1 /\
     count is_allocation tr' <= 1 /\ count is_copy tr' <= 1 /\
     count is_pointer_build tr' <= 1 /\ count is_batched_run tr' <= 1)%nat.
Proof.
  do 2 eexists. split; [ reflexivity | ]. split; [ reflexivity | ].
  apply (each_resource_at_most_once
           friendly 1 roomy (mkAnyBuffer F32 [3; 2; 4] 1000)
           (mkAnyBuffer F32 [3; 2; 4] 2000) pivots infos 3 _ _ eq_refl).
Defined.

(** Extra X5.  Every call of a dispatch that takes a stream (a handle
    borrow, the copy, the pointer-array build) takes the stream the
    dispatch was given. *)
Theorem calls_stay_on_the_caller_stream
    (be : Backend) (stream : gpuStream_t) (scratch : ScratchAllocator)
    (a out : AnyBuffer) (ipiv info : BufferS32) (fuel : nat)
    (e : Error) (tr' : Trace) :
  GetrfDispatch be stream scratch a out ipiv info fuel [] = Some (e, tr') ->
  forall ev s, In ev tr' -> event_stream ev = Some s -> s = stream.
Proof.
  intros H ev s Hin Hs.
  assert (Hall : Forall (on_stream stream) tr').
  { apply dispatch_inv in H.
    destruct H as [[-> _] | (T & batch & rows & cols & _ & [H | H])].
    - constructor.
    - eapply batched_side. exact H.
    - eapply looped_side. exact H. }
  rewrite Forall_forall in Hall. destruct (Hall ev Hin) as [Hn | Hsome];
    congruence.
Qed.

Lemma calls_stay_on_the_caller_stream_witness :
  exists e tr',
    GetrfDispatch friendly 5 roomy
                  (mkAnyBuffer F32 [3; 2; 2] 1000) (mkAnyBuffer F32 [3; 2; 2] 2000)
                  pivots infos 0 [] = Some (e, tr') /\
    In (MemcpyAsync 2000 1000 48 5 gpuSuccess) tr' /\
    forall ev s, In ev tr' -> event_stream ev = Some s -> s = 5.
Proof.
  do 2 eexists. split; [ reflexivity | ].
  split; [ simpl; auto | ].
  apply (calls_stay_on_the_caller_stream
           friendly 5 roomy (mkAnyBuffer F32 [3; 2; 2] 1000)
           (mkAnyBuffer F32 [3; 2; 2] 2000) pivots infos 0 _ _ eq_refl).
Defined.

(** ** The protocol of the batched strategy *)

Section BatchedProtocol.

Variables (be : Backend) (T : ElemType) (batch cols : Z).
Variables (stream : gpuStream_t) (scratch : ScratchAllocator).
Variables (a out : AnyBuffer) (ipiv info : BufferS32).

Lemma batched_protocol (e : Error) (tr' : Trace) :
  GetrfBatchedImpl be T batch cols stream scratch a out ipiv info []
  = Some (e, tr') ->
  e = Success ->
  exists h ws ics,
    tr' =
      [BlasBorrow stream (Some h);
       ScratchAllocate (to_size_t (sizeof_ptr * batch)) (Some ws)]
      ++ (if untyped_data a =? untyped_data out then []
          else [MemcpyAsync (untyped_data out) (untyped_data a)
                            (to_size_t (sizeof T * batch * cols * cols))
                            stream gpuSuccess])
      ++ [MakeBatchPointers stream (untyped_data out) ws batch
                            (to_size_t (sizeof T * cols * cols));
          GetLastError gpuSuccess;
          GetrfBatchedRun T h cols ws cols (typed_data ipiv) (typed_data info)
                          (to_int batch) gpuSuccess ics].
Proof.
  intros H He. unfold GetrfBatchedImpl, GetrfBatchedImpl_body in H.
  run_device H; try discriminate He;
    repeat match goal with
           | Hb : negb (_ =? _) = true |- _ =>
               apply negb_true_iff in Hb; rewrite Hb
           | Hb : negb (_ =? _) = false |- _ =>
               apply negb_false_iff in Hb; rewrite Hb
           end;
    do 3 eexists; reflexivity.
Qed.

Lemma batched_first_call (e : Error) (tr' : Trace) :
  GetrfBatchedImpl be T batch cols stream scratch a out ipiv info []
  = Some (e, tr') ->
  tr' <> [] ->
  fits_int cols /\ exists ans rest, tr' = BlasBorrow stream ans :: rest.
Proof.
  intros H Hne. unfold GetrfBatchedImpl, GetrfBatchedImpl_body in H.
  run_device H; try congruence;
    (split; [ apply fits_intb_spec; assumption | ]);
    do 2 eexists; reflexivity.
Qed.

Lemma batched_allocation (e : Error) (tr' : Trace) (bytes : Z) (ans : option Z) :
  GetrfBatchedImpl be T batch cols stream scratch a out ipiv info []
  = Some (e, tr') ->
  In (ScratchAllocate bytes ans) tr' ->
  bytes = to_size_t (sizeof_ptr * batch) /\
  (ans = None ->
   e = mkError kUnknown "Unable to allocate workspace for batched getrf").
Proof.
  intros H Hin. unfold GetrfBatchedImpl, GetrfBatchedImpl_body in H.
  run_device H; in_log Hin; try discriminate Hin;
    injection Hin as <- <-; (split; [ reflexivity | ]);
    intros Hn; first [ reflexivity | discriminate Hn ].
Qed.

End BatchedProtocol.

Section LoopedProtocol.

Variables (be : Backend) (T : ElemType) (batch rows cols : Z).
Variables (stream : gpuStream_t) (scratch : ScratchAllocator).
Variables (a out : AnyBuffer) (ipiv info : BufferS32).

Lemma looped_first_call (fuel : nat) (e : Error) (tr' : Trace) :
  GetrfImpl be T batch rows cols stream scratch a out ipiv info fuel []
  = Some (e, tr') ->
  tr' <> [] ->
  fits_int rows /\ fits_int cols /\
  exists ans rest, tr' = SolverBorrow stream ans :: rest.
Proof.
  intros H Hne. unfold GetrfImpl, GetrfImpl_body in H.
  run_device H; try use_loop_inv; subst; try congruence;
    (split; [ apply fits_intb_spec; assumption | ]);
    (split; [ apply fits_intb_spec; assumption | ]);
    do 2 eexists; reflexivity.
Qed.

Lemma looped_allocation (fuel : nat) (e : Error) (tr' : Trace)
    (bytes : Z) (ans : option Z) :
  GetrfImpl be T batch rows cols stream scratch a out ipiv info fuel []
  = Some (e, tr') ->
  In (ScratchAllocate bytes ans) tr' ->
  (exists h lwork,
      In (BufferSizeQuery T h rows cols rows gpuSuccess lwork) tr' /\
      bytes = to_size_t (sizeof T * lwork)) /\
  (ans = None -> e = mkError kUnknown "Unable to allocate workspace for getrf").
Proof.
  intros H Hin. unfold GetrfImpl, GetrfImpl_body in H.
  run_device H; try use_loop_inv; subst; in_log Hin; try discriminate Hin.
  all: try (match goal with
            | Hr : looped_runs _ _ _ _ _ _ _ _ _ ?runs, Hi : In _ ?runs |- _ =>
                apply looped_runs_is_run in Hr;
                rewrite Forall_forall in Hr; apply Hr in Hi; discriminate Hi
            end).
  all: injection Hin as <- <-;
    (split;
     [ do 2 eexists; split; [ | reflexivity ];
       rewrite ?in_app_iff; cbn [In]; auto 8
     | intros Hn; first [ reflexivity | discriminate Hn ] ]).
Qed.

(** With nothing in the batch the loop is left at once. *)
Lemma looped_empty_batch (fuel : nat) (e : Error) (tr' : Trace) :
  batch <= 0 ->
  GetrfImpl be T batch rows cols stream scratch a out ipiv info fuel []
  = Some (e, tr') ->
  Forall (fun ev => factorization_call ev = false) tr'.
Proof.
  intros Hb H. unfold GetrfImpl, GetrfImpl_body in H.
  run_device H;
    try match goal with
        | Hl : GetrfImpl_loop _ _ _ _ _ _ _ _ _ _ _ _ _ _ = Some _ |- _ =>
            rewrite loop_exit in Hl by lia; injection Hl as Hl; subst
        end;
    try discriminate; cbn [app]; repeat constructor.
Qed.

End LoopedProtocol.

(** Extra X6.  A successful dispatch under the batched strategy has made
    exactly these calls, in this order: the BLAS handle borrow, the
    allocation of batch pointers (sizeof_ptr * batch bytes), the copy when input and
    output differ, the pointer-array build over the output buffer into the
    allocated memory, the launch-error query, and one batched [Run] on that
    pointer array with the borrowed handle. *)
Theorem batched_success_protocol
    (be : Backend) (stream : gpuStream_t) (scratch : ScratchAllocator)
    (a out : AnyBuffer) (ipiv info : BufferS32) (fuel : nat)
    (T : ElemType) (batch rows cols : Z) (tr' : Trace) :
  element_type a = element_type out ->
  supported (element_type a) = Some T ->
  SplitBatch2D (dimensions a) = inr (batch, rows, cols) ->
  batched_condition batch rows cols ->
  GetrfDispatch be stream scratch a out ipiv info fuel [] = Some (Success, tr') ->
  exists h ws ics,
    tr' =
      [BlasBorrow stream (Some h);
       ScratchAllocate (to_size_t (sizeof_ptr * batch)) (Some ws)]
      ++ (if untyped_data a =? untyped_data out then []
          else [MemcpyAsync (untyped_data out) (untyped_data a)
                            (to_size_t (sizeof T * batch * cols * cols))
                            stream gpuSuccess])
      ++ [MakeBatchPointers stream (untyped_data out) ws batch
                            (to_size_t (sizeof T * cols * cols));
          GetLastError gpuSuccess;
          GetrfBatchedRun T h cols ws cols (typed_data ipiv) (typed_data info)
                          (to_int batch) gpuSuccess ics].
Proof.
  intros Ht Hsup Hs Hc H.
  destruct (dispatch_strategy be stream scratch a out ipiv info fuel
              T batch rows cols Ht Hsup Hs) as [[_ Hd] | [Hn _]];
    [ | contradiction ].
  rewrite Hd in H. eapply batched_protocol; [ exact H | reflexivity ].
Qed.

Lemma batched_success_protocol_witness :
  exists h ws ics,
    [BlasBorrow 1 (Some 9); ScratchAllocate 32 (Some 4096);
     MemcpyAsync 2000 1000 576 1 gpuSuccess;
     MakeBatchPointers 1 2000 4096 4 144; GetLastError gpuSuccess;
     GetrfBatchedRun T_double_complex 9 3 4096 3 3000 4000 4 gpuSuccess
                     [1; 1; 1; 1]]
    = [BlasBorrow 1 (Some h);
       ScratchAllocate (to_size_t (sizeof_ptr * 4)) (Some ws)]
      ++ (if 1000 =? 2000 then []
          else [MemcpyAsync 2000 1000
                            (to_size_t (sizeof T_double_complex * 4 * 3 * 3))
                            1 gpuSuccess])
      ++ [MakeBatchPointers 1 2000 ws 4
                            (to_size_t (sizeof T_double_complex * 3 * 3));
          GetLastError gpuSuccess;
          GetrfBatchedRun T_double_complex h 3 ws 3 3000 4000 (to_int 4)
                          gpuSuccess ics].
Proof.
  assert (Hc : batched_condition 4 3 3).
  { unfold batched_condition.
    split; [ lia | split; [ reflexivity | vm_compute; discriminate ] ]. }
  exact (batched_success_protocol
           friendly 1 roomy (mkAnyBuffer C128 [4; 3; 3] 1000)
           (mkAnyBuffer C128 [4; 3; 3] 2000) pivots infos 0
           T_double_complex 4 3 3 _ eq_refl eq_refl eq_refl Hc eq_refl).
Defined.

(** Extra X7.  For a validated input with an empty batch (batch <= 0) the
    dispatch returns with any fuel and issues neither a pointer-array
    build nor a factorization call. *)
Theorem empty_batch_is_not_factorized
    (be : Backend) (stream : gpuStream_t) (scratch : ScratchAllocator)
    (a out : AnyBuffer) (ipiv info : BufferS32) (fuel : nat)
    (T : ElemType) (batch rows cols : Z) :
  element_type a = element_type out ->
  supported (element_type a) = Some T ->
  SplitBatch2D (dimensions a) = inr (batch, rows, cols) ->
  batch <= 0 ->
  exists e tr',
    GetrfDispatch be stream scratch a out ipiv info fuel [] = Some (e, tr') /\
    Forall (fun ev => factorization_call ev = false) tr'.
Proof.
  intros Ht Hsup Hs Hb.
  destruct (dispatch_strategy be stream scratch a out ipiv info fuel
              T batch rows cols Ht Hsup Hs) as [[Hc _] | [_ Hd]].
  { destruct Hc as (Hc & _). lia. }
  rewrite Hd.
  destruct (GetrfImpl be T batch rows cols stream scratch a out ipiv info fuel [])
    as [[e tr'] | ] eqn:H.
  - exists e, tr'. split; [ reflexivity | ].
    eapply looped_empty_batch; eassumption.
  - exfalso. revert H. apply GetrfImpl_returns; unfold INT_MAX; lia.
Qed.

Lemma empty_batch_is_not_factorized_witness :
  exists e tr',
    GetrfDispatch friendly 1 roomy
                  (mkAnyBuffer F32 [0; 3; 3] 1000) (mkAnyBuffer F32 [0; 3; 3] 2000)
                  pivots infos 0 [] = Some (e, tr') /\
    Forall (fun ev => factorization_call ev = false) tr'.
Proof.
  apply (empty_batch_is_not_factorized
           friendly 1 roomy (mkAnyBuffer F32 [0; 3; 3] 1000)
           (mkAnyBuffer F32 [0; 3; 3] 2000) pivots infos 0 T_float 0 3 3).
  - reflexivity.
  - reflexivity.
  - reflexivity.
  - lia.
Defined.

(** Extra X8.  The dispatcher reads the element type and the address of
    the output buffer and nothing else of it: two output buffers that
    differ in their dimensions only give the same result and the same
    calls.  The shape of the output is not checked against the input. *)
Theorem output_shape_is_not_checked
    (be : Backend) (stream : gpuStream_t) (scratch : ScratchAllocator)
    (a out out' : AnyBuffer) (ipiv info : BufferS32) (fuel : nat) (tr : Trace) :
  element_type out = element_type out' ->
  untyped_data out = untyped_data out' ->
  GetrfDispatch be stream scratch a out ipiv info fuel tr
  = GetrfDispatch be stream scratch a out' ipiv info fuel tr.
Proof.
  intros Ht Hd. destruct out as [t d u], out' as [t' d' u'].
  cbn in Ht, Hd. subst t' u'. reflexivity.
Qed.

Lemma output_shape_is_not_checked_witness :
  GetrfDispatch friendly 1 roomy (mkAnyBuffer F32 [2; 3; 3] 1000)
                (mkAnyBuffer F32 [2; 3; 3] 2000) pivots infos 2 []
  = GetrfDispatch friendly 1 roomy (mkAnyBuffer F32 [2; 3; 3] 1000)
                  (mkAnyBuffer F32 [7] 2000) pivots infos 2 [].
Proof.
  apply (output_shape_is_not_checked
           friendly 1 roomy (mkAnyBuffer F32 [2; 3; 3] 1000)
           (mkAnyBuffer F32 [2; 3; 3] 2000) (mkAnyBuffer F32 [7] 2000)
           pivots infos 2 []); reflexivity.
Defined.

(** Extra X9.  What a dispatch asks of the scratch allocator: under the
    batched strategy batch pointers (sizeof_ptr * batch bytes); under the looped strategy
    sizeof(T) * lwork bytes, lwork being the answer of the workspace-size
    query made for (rows, cols) with lda = rows.  When the allocator
    answers with nothing, the error is [Unknown] with the message of the
    strategy that ran. *)
Theorem scratch_request
    (be : Backend) (stream : gpuStream_t) (scratch : ScratchAllocator)
    (a out : AnyBuffer) (ipiv info : BufferS32) (fuel : nat)
    (T : ElemType) (batch rows cols : Z) (e : Error) (tr' : Trace)
    (bytes : Z) (ans : option Z) :
  element_type a = element_type out ->
  supported (element_type a) = Some T ->
  SplitBatch2D (dimensions a) = inr (batch, rows, cols) ->
  GetrfDispatch be stream scratch a out ipiv info fuel [] = Some (e, tr') ->
  In (ScratchAllocate bytes ans) tr' ->
  (batched_condition batch rows cols ->
   bytes = to_size_t (sizeof_ptr * batch) /\
   (ans = None ->
    e = mkError kUnknown "Unable to allocate workspace for batched getrf")) /\
  (~ batched_condition batch rows cols ->
   (exists h lwork,
       In (BufferSizeQuery T h rows cols rows gpuSuccess lwork) tr' /\
       bytes = to_size_t (sizeof T * lwork)) /\
   (ans = None ->
    e = mkError kUnknown "Unable to allocate workspace for getrf")).
Proof.
  intros Ht Hsup Hs H Hin.
  destruct (dispatch_strategy be stream scratch a out ipiv info fuel
              T batch rows cols Ht Hsup Hs) as [[Hc Hd] | [Hc Hd]];
    rewrite Hd in H; (split; [ intros Hc' | intros Hc' ]);
    try contradiction.
  - eapply batched_allocation; eassumption.
  - eapply looped_allocation; eassumption.
Qed.

Lemma scratch_request_witness :
  ~ batched_condition 1 4 4 /\
  (exists h lwork,
      In (BufferSizeQuery T_double h 4 4 4 gpuSuccess lwork)
         [SolverBorrow 1 (Some 7);
          BufferSizeQuery T_double 7 4 4 4 gpuSuccess 16;
          ScratchAllocate 128 None] /\
      128 = to_size_t (sizeof T_double * lwork)) /\
  (@None Z = None ->
   mkError kUnknown "Unable to allocate workspace for getrf"
   = mkError kUnknown "Unable to allocate workspace for getrf").
Proof.
  assert (Hc : ~ batched_condition 1 4 4).
  { unfold batched_condition. intros (Hb & _). lia. }
  split; [ exact Hc | ].
  apply (proj2 (scratch_request
                  friendly 1 exhausted (mkAnyBuffer F64 [4; 4] 1000)
                  (mkAnyBuffer F64 [4; 4] 1000) pivots infos 1
                  T_double 1 4 4 _ _ 128 None
                  eq_refl eq_refl eq_refl eq_refl
                  (or_intror (or_intror (or_introl eq_refl))))).
  exact Hc.
Defined.

(** Extra X10.  A dispatch that has made any call has passed validation:
    input and output have the same, supported, element type, the
    dimensions decompose, and rows and cols fit an [int]; and its first
    call is the borrow of a handle bound to the caller's stream. *)
Theorem calls_only_after_validation
    (be : Backend) (stream : gpuStream_t) (scratch : ScratchAllocator)
    (a out : AnyBuffer) (ipiv info : BufferS32) (fuel : nat)
    (e : Error) (tr' : Trace) :
  GetrfDispatch be stream scratch a out ipiv info fuel [] = Some (e, tr') ->
  tr' <> [] ->
  element_type a = element_type out /\
  (exists T, supported (element_type a) = Some T) /\
  (exists batch rows cols,
      SplitBatch2D (dimensions a) = inr (batch, rows, cols) /\
      fits_int rows /\ fits_int cols) /\
  (exists ans rest, tr' = SolverBorrow stream ans :: rest
                    \/ tr' = BlasBorrow stream ans :: rest).
Proof.
  intros H Hne.
  destruct (DataType_eq_dec (element_type a) (element_type out)) as [Ht | Ht].
  2:{ rewrite dispatch_type_mismatch in H by exact Ht.
      injection H as <- <-. congruence. }
  destruct (SplitBatch2D (dimensions a)) as [st | [[batch rows] cols]] eqn:Hs.
  { rewrite (dispatch_split_failure _ _ _ _ _ _ _ _ st [] Ht Hs) in H.
    injection H as <- <-. congruence. }
  destruct (supported (element_type a)) as [T | ] eqn:Hsup.
  2:{ rewrite (dispatch_unsupported _ _ _ _ _ _ _ _ batch rows cols [] Ht Hs Hsup)
        in H.
      injection H as <- <-. congruence. }
  split; [ exact Ht | ]. split; [ exists T; reflexivity | ].
  destruct (dispatch_strategy be stream scratch a out ipiv info fuel
              T batch rows cols Ht Hsup Hs) as [[Hc Hd] | [Hc Hd]];
    rewrite Hd in H.
  - destruct Hc as (_ & Heq & _).
    destruct (batched_first_call _ _ _ _ _ _ _ _ _ _ _ _ H Hne)
      as (Hfit & ans & rest & ->).
    split; [ exists batch, rows, cols; subst rows; auto | ].
    exists ans, rest. right. reflexivity.
  - destruct (looped_first_call _ _ _ _ _ _ _ _ _ _ _ _ _ _ H Hne)
      as (Hr & Hfit & ans & rest & ->).
    split; [ exists batch, rows, cols; auto | ].
    exists ans, rest. left. reflexivity.
Qed.

Lemma calls_only_after_validation_witness :
  exists e tr',
    GetrfDispatch friendly 1 exhausted
                  (mkAnyBuffer C64 [2; 5] 1000) (mkAnyBuffer C64 [2; 5] 1000)
                  pivots infos 1 [] = Some (e, tr') /\
    tr' <> [] /\
    C64 = C64 /\
    (exists T, supported C64 = Some T) /\
    (exists batch rows cols,
        SplitBatch2D [2; 5] = inr (batch, rows, cols) /\
        fits_int rows /\ fits_int cols) /\
    (exists ans rest, tr' = SolverBorrow 1 ans :: rest
                      \/ tr' = BlasBorrow 1 ans :: rest).
Proof.
  do 2 eexists. split; [ reflexivity | ].
  assert (Hne : [SolverBorrow 1 (Some 7);
                 BufferSizeQuery T_complex 7 2 5 2 gpuSuccess 16;
                 ScratchAllocate 128 None] <> []) by discriminate.
  split; [ exact Hne | ].
  exact (calls_only_after_validation
           friendly 1 exhausted (mkAnyBuffer C64 [2; 5] 1000)
           (mkAnyBuffer C64 [2; 5] 1000) pivots infos 1 _ _ eq_refl Hne).
Defined.

(** ** Allocation failure, strategy by strategy *)

Section FailedAllocation.

Variables (be : Backend) (T : ElemType) (batch rows cols : Z).
Variables (stream : gpuStream_t) (scratch : ScratchAllocator).
Variables (a out : AnyBuffer) (ipiv info : BufferS32).

Lemma batched_allocation_fails (h : Z) :
  fits_int cols ->
  blas_handle be [] stream = Some h ->
  Allocate_answer scratch [BlasBorrow stream (Some h)]
                  (to_size_t (sizeof_ptr * batch)) = None ->
  GetrfBatchedImpl be T batch cols stream scratch a out ipiv info []
  = Some (mkError kUnknown "Unable to allocate workspace for batched getrf",
          [BlasBorrow stream (Some h);
           ScratchAllocate (to_size_t (sizeof_ptr * batch)) None]).
Proof.
  intros Hc Hh Ha.
  unfold GetrfBatchedImpl, GetrfBatchedImpl_body, ffi_function,
    FFI_ASSIGN_OR_RETURN, BlasHandlePool_Borrow, Allocate, bind, ret,
    return_error, call.
  rewrite (MaybeCastNoOverflow_int_fits cols Hc).
  cbn [app]. rewrite Hh. cbn [app]. rewrite Ha. reflexivity.
Qed.

Lemma looped_allocation_fails (fuel : nat) (h lwork : Z) :
  fits_int rows -> fits_int cols ->
  solver_handle be [] stream = Some h ->
  getrf_bufferSize be [SolverBorrow stream (Some h)] T h rows cols
  = (gpuSuccess, lwork) ->
  Allocate_answer scratch
                  [SolverBorrow stream (Some h);
                   BufferSizeQuery T h rows cols rows gpuSuccess lwork]
                  (to_size_t (sizeof T * lwork)) = None ->
  GetrfImpl be T batch rows cols stream scratch a out ipiv info fuel []
  = Some (mkError kUnknown "Unable to allocate workspace for getrf",
          [SolverBorrow stream (Some h);
           BufferSizeQuery T h rows cols rows gpuSuccess lwork;
           ScratchAllocate (to_size_t (sizeof T * lwork)) None]).
Proof.
  intros Hr Hc Hh Hq Ha.
  unfold GetrfImpl, GetrfImpl_body, ffi_function,
    FFI_ASSIGN_OR_RETURN, SolverHandlePool_Borrow, GetrfKernel_BufferSize,
    Allocate, bind, ret, return_error, call.
  rewrite (MaybeCastNoOverflow_int_fits rows Hr),
    (MaybeCastNoOverflow_int_fits cols Hc).
  cbn [app]. rewrite Hh. cbn [app]. rewrite Hq. cbn [app ok JAX_AS_STATUS
    OkStatus status_code]. rewrite Ha. reflexivity.
Qed.

End FailedAllocation.

(** Claim C3, amended.  A dispatch in which the scratch allocator answers
    with nothing returns [Unknown] and has issued no device work.  Under
    the batched strategy it has borrowed the BLAS handle and asked for the
    allocation, and nothing else; under the looped strategy it has borrowed
    the solver handle, made the workspace-size query that sizes the
    allocation, and asked for the allocation, and nothing else. *)
Theorem allocation_failure_returns_unknown
    (be : Backend) (stream : gpuStream_t) (scratch : ScratchAllocator)
    (a out : AnyBuffer) (ipiv info : BufferS32) (fuel : nat)
    (T : ElemType) (batch rows cols : Z) :
  element_type a = element_type out ->
  supported (element_type a) = Some T ->
  SplitBatch2D (dimensions a) = inr (batch, rows, cols) ->
  (batched_condition batch rows cols ->
   fits_int cols ->
   forall h,
     blas_handle be [] stream = Some h ->
     Allocate_answer scratch [BlasBorrow stream (Some h)]
                     (to_size_t (sizeof_ptr * batch)) = None ->
     GetrfDispatch be stream scratch a out ipiv info fuel []
     = Some (mkError kUnknown "Unable to allocate workspace for batched getrf",
             [BlasBorrow stream (Some h);
              ScratchAllocate (to_size_t (sizeof_ptr * batch)) None])) /\
  (~ batched_condition batch rows cols ->
   fits_int rows -> fits_int cols ->
   forall h lwork,
     solver_handle be [] stream = Some h ->
     getrf_bufferSize be [SolverBorrow stream (Some h)] T h rows cols
     = (gpuSuccess, lwork) ->
     Allocate_answer scratch
                     [SolverBorrow stream (Some h);
                      BufferSizeQuery T h rows cols rows gpuSuccess lwork]
                     (to_size_t (sizeof T * lwork)) = None ->
     GetrfDispatch be stream scratch a out ipiv info fuel []
     = Some (mkError kUnknown "Unable to allocate workspace for getrf",
             [SolverBorrow stream (Some h);
              BufferSizeQuery T h rows cols rows gpuSuccess lwork;
              ScratchAllocate (to_size_t (sizeof T * lwork)) None])).
Proof.
  intros Ht Hsup Hs.
  destruct (dispatch_strategy be stream scratch a out ipiv info fuel
              T batch rows cols Ht Hsup Hs) as [[Hcond Hd] | [Hcond Hd]];
    (split; [ intros Hc | intros Hc ]); try contradiction; rewrite Hd.
  - intros Hfit h Hh Ha. apply batched_allocation_fails; assumption.
  - intros Hr Hfit h lwork Hh Hq Ha. apply looped_allocation_fails; assumption.
Qed.

Lemma allocation_failure_returns_unknown_witness :
  GetrfDispatch friendly 1 exhausted
                (mkAnyBuffer F32 [3; 5; 5] 1000) (mkAnyBuffer F32 [3; 5; 5] 2000)
                pivots infos 3 []
  = Some (mkError kUnknown "Unable to allocate workspace for batched getrf",
          [BlasBorrow 1 (Some 9); ScratchAllocate (to_size_t (sizeof_ptr * 3)) None])
  /\
  GetrfDispatch friendly 1 exhausted
                (mkAnyBuffer F32 [3; 5; 4] 1000) (mkAnyBuffer F32 [3; 5; 4] 2000)
                pivots infos 3 []
  = Some (mkError kUnknown "Unable to allocate workspace for getrf",
          [SolverBorrow 1 (Some 7);
           BufferSizeQuery T_float 7 5 4 5 gpuSuccess 16;
           ScratchAllocate (to_size_t (sizeof T_float * 16)) None]).
Proof.
  assert (Hb : batched_condition 3 5 5).
  { unfold batched_condition.
    split; [ lia | split; [ reflexivity | vm_compute; discriminate ] ]. }
  assert (Hl : ~ batched_condition 3 5 4).
  { unfold batched_condition. intros (_ & Heq & _). discriminate Heq. }
  assert (H5 : fits_int 5) by (unfold fits_int, INT_MIN, INT_MAX; lia).
  assert (H4 : fits_int 4) by (unfold fits_int, INT_MIN, INT_MAX; lia).
  split.
  - exact (proj1 (allocation_failure_returns_unknown
                    friendly 1 exhausted (mkAnyBuffer F32 [3; 5; 5] 1000)
                    (mkAnyBuffer F32 [3; 5; 5] 2000) pivots infos 3
                    T_float 3 5 5 eq_refl eq_refl eq_refl)
                 Hb H5 9 eq_refl eq_refl).
  - exact (proj2 (allocation_failure_returns_unknown
                    friendly 1 exhausted (mkAnyBuffer F32 [3; 5; 4] 1000)
                    (mkAnyBuffer F32 [3; 5; 4] 2000) pivots infos 3
                    T_float 3 5 4 eq_refl eq_refl eq_refl)
                 Hl H5 H4 7 16 eq_refl eq_refl eq_refl).
Defined.

(** ** The batched strategy is reached by square matrices only *)

(** Claim C9.  For a validated input: a dispatch whose log holds a call of
    the batched strategy has rows = cols, rows and cols within the range of
    an [int] although only cols is cast, and every call of its log written
    with cols (copy size, pointer stride, order and leading dimension of
    the batched [Run]); under the dispatcher's condition the dispatch is
    [GetrfBatchedImpl] on batch and cols, which is not given rows; and with
    cols within an [int] and collaborators that succeed it returns success
    after exactly the calls listed, all written with cols. *)
Theorem batched_call_implies_square
    (be : Backend) (stream : gpuStream_t) (scratch : ScratchAllocator)
    (a out : AnyBuffer) (ipiv info : BufferS32) (fuel : nat)
    (T : ElemType) (batch rows cols : Z) :
  element_type a = element_type out ->
  supported (element_type a) = Some T ->
  SplitBatch2D (dimensions a) = inr (batch, rows, cols) ->
  (forall e tr' ev,
      GetrfDispatch be stream scratch a out ipiv info fuel [] = Some (e, tr') ->
      In ev tr' -> blas_side ev = true ->
      rows = cols /\ fits_int rows /\ fits_int cols /\
      Forall (batched_event T batch cols stream a out ipiv info) tr') /\
  (batched_condition batch rows cols ->
   forall tr,
     GetrfDispatch be stream scratch a out ipiv info fuel tr
     = GetrfBatchedImpl be T batch cols stream scratch a out ipiv info tr) /\
  (batched_condition batch rows cols ->
   fits_int cols -> setup_succeeds be scratch -> calls_go_through be ->
   exists h ws ics,
     GetrfDispatch be stream scratch a out ipiv info fuel []
     = Some (Success,
             [BlasBorrow stream (Some h);
              ScratchAllocate (to_size_t (sizeof_ptr * batch)) (Some ws)]
             ++ (if untyped_data a =? untyped_data out then []
                 else [MemcpyAsync (untyped_data out) (untyped_data a)
                                   (to_size_t (sizeof T * batch * cols * cols))
                                   stream gpuSuccess])
             ++ [MakeBatchPointers stream (untyped_data out) ws batch
                                   (to_size_t (sizeof T * cols * cols));
                 GetLastError gpuSuccess;
                 GetrfBatchedRun T h cols ws cols (typed_data ipiv)
                                 (typed_data info) (to_int batch) gpuSuccess
                                 ics])).
Proof.
  intros Ht Hsup Hs.
  destruct (dispatch_strategy be stream scratch a out ipiv info fuel
              T batch rows cols Ht Hsup Hs) as [[Hcond Hd] | [Hcond Hd]].
  - split; [ | split ].
    + intros e tr' ev H Hin Hev. rewrite Hd in H.
      destruct Hcond as (_ & Heq & _). subst cols.
      assert (Hne : tr' <> []) by (intros ->; contradiction).
      destruct (batched_first_call _ _ _ _ _ _ _ _ _ _ _ _ H Hne) as [Hfit _].
      repeat (split; [ first [ reflexivity | exact Hfit ] | ]).
      eapply batched_log. exact H.
    + intros _. exact Hd.
    + intros _ Hfit Hsetup Hcalls. rewrite Hd.
      destruct (batched_success be T batch cols stream scratch a out ipiv info
                  Hsetup Hcalls Hfit)
        as (tr' & h & ws & st & ics & Hrun & _).
      destruct (batched_protocol _ _ _ _ _ _ _ _ _ _ _ _ Hrun eq_refl)
        as (h' & ws' & ics' & Hlog).
      exists h', ws', ics'. rewrite Hrun, Hlog. reflexivity.
  - split; [ | split ]; try contradiction.
    intros e tr' ev H Hin Hev. exfalso. rewrite Hd in H.
    pose proof (looped_side _ _ _ _ _ _ _ _ _ _ _ _ _ _ H) as [Hside _].
    rewrite Forall_forall in Hside. apply Hside in Hin. congruence.
Qed.

Lemma batched_call_implies_square_witness :
  exists h ws ics,
    GetrfDispatch friendly 1 roomy
                  (mkAnyBuffer C64 [5; 3; 3] 1000) (mkAnyBuffer C64 [5; 3; 3] 2000)
                  pivots infos 0 []
    = Some (Success,
            [BlasBorrow 1 (Some h);
             ScratchAllocate (to_size_t (sizeof_ptr * 5)) (Some ws)]
            ++ (if 1000 =? 2000 then []
                else [MemcpyAsync 2000 1000
                                  (to_size_t (sizeof T_complex * 5 * 3 * 3))
                                  1 gpuSuccess])
            ++ [MakeBatchPointers 1 2000 ws 5
                                  (to_size_t (sizeof T_complex * 3 * 3));
                GetLastError gpuSuccess;
                GetrfBatchedRun T_complex h 3 ws 3 3000 4000 (to_int 5)
                                gpuSuccess ics]).
Proof.
  assert (Hc : batched_condition 5 3 3).
  { unfold batched_condition.
    split; [ lia | split; [ reflexivity | vm_compute; discriminate ] ]. }
  assert (H3 : fits_int 3) by (unfold fits_int, INT_MIN, INT_MAX; lia).
  exact (proj2 (proj2 (batched_call_implies_square
                         friendly 1 roomy (mkAnyBuffer C64 [5; 3; 3] 1000)
                         (mkAnyBuffer C64 [5; 3; 3] 2000) pivots infos 0
                         T_complex 5 3 3 eq_refl eq_refl eq_refl))
               Hc H3 friendly_setup_succeeds friendly_calls_go_through).
Defined.

(** ** A batch count beyond [int]: a [Run] that fails *)

Lemma count_snoc_run (tr : Trace) (ev : Event) :
  is_run ev = true -> count is_run (tr ++ [ev]) = S (count is_run tr).
Proof.
  intros H. unfold count. rewrite filter_app, length_app.
  cbn [filter]. rewrite H. cbn [length]. lia.
Qed.

Lemma filter_only_runs (runs : list Event) :
  Forall (fun ev => is_run ev = true) runs -> filter is_run runs = runs.
Proof.
  induction 1 as [ | ev runs Hev Hruns IH]; [ reflexivity | ].
  cbn [filter]. rewrite Hev, IH. reflexivity.
Qed.

Section FailingRun.

Variables (be : Backend) (T : ElemType) (handle m n workspace lwork batch : Z).
Variable k : nat.

Hypothesis Hfails : run_fails_at k be.
Hypothesis Hbatch : Z.of_nat k < batch.
Hypothesis Hindex : Z.of_nat k <= INT_MAX.

Local Abbreviation loop := (GetrfImpl_loop be T handle m n workspace lwork batch).

(** The loop makes the [Run] calls up to number [k] and returns with the
    failure of that one; the index stays below [INT_MAX] on the way. *)
Lemma loop_fails_at (j : nat) :
  forall (fuel : nat) (o p f : Z) (tr : Trace),
    (count is_run tr + j = k)%nat ->
    (j < fuel)%nat ->
    exists e runs,
      loop fuel (Z.of_nat (count is_run tr)) o p f tr
      = Some (inl e, tr ++ runs) /\
      code e = kUnknown /\
      length runs = S j /\
      Forall (fun ev => is_run ev = true) runs.
Proof.
  induction j as [ | j IH]; intros fuel o p f tr Hk Hfuel;
    (destruct fuel as [ | fuel]; [ lia | ]);
    rewrite loop_step by lia;
    destruct (Hfails tr T handle m n o) as [Hgood Hbad];
    destruct (getrf be tr T handle m n o) as [st ic]; cbn [fst] in *.
  - destruct Hbad as [what ->]; [ lia | ].
    do 2 eexists. split; [ reflexivity | ].
    split; [ reflexivity | ]. split; [ reflexivity | ].
    repeat constructor.
  - rewrite Hgood by lia.
    assert (Hcount :
              count is_run
                    (tr ++ [GetrfRun T handle m n o m workspace lwork p f
                                     gpuSuccess ic])
              = S (count is_run tr)) by (apply count_snoc_run; reflexivity).
    assert (Hnext : int_succ (Z.of_nat (count is_run tr))
                    = Z.of_nat (S (count is_run tr))).
    { unfold int_succ. rewrite to_int_fits;
        unfold fits_int, INT_MIN, INT_MAX in *; lia. }
    rewrite Hnext, <- Hcount.
    destruct (IH fuel (o + sizeof T * int_mul m n)
                 (p + sizeof_int * Z.min m n) (f + sizeof_int)
                 (tr ++ [GetrfRun T handle m n o m workspace lwork p f
                                  gpuSuccess ic]))
      as (e & runs & Hrun & Hcode & Hlen & Hall); [ lia | lia | ].
    exists e. eexists (_ :: runs). rewrite Hrun, <- app_assoc.
    split; [ reflexivity | ]. split; [ exact Hcode | ].
    split; [ cbn [length]; lia | ].
    constructor; [ reflexivity | exact Hall ].
Qed.

End FailingRun.

Section FailingRunDispatch.

Variables (be : Backend) (T : ElemType) (batch rows cols : Z).
Variables (stream : gpuStream_t) (scratch : ScratchAllocator).
Variables (a out : AnyBuffer) (ipiv info : BufferS32).

(** Whatever the batch count above [k], the looped strategy reaches [Run]
    number [k] and returns with its failure. *)
Lemma looped_fails_at (k fuel : nat) :
  fits_int rows -> fits_int cols ->
  Z.of_nat k < batch -> Z.of_nat k <= INT_MAX -> (k < fuel)%nat ->
  setup_succeeds be scratch ->
  (forall tr dst src bytes s, memcpy_status be tr dst src bytes s = gpuSuccess) ->
  run_fails_at k be ->
  exists e tr',
    GetrfImpl be T batch rows cols stream scratch a out ipiv info fuel []
    = Some (e, tr') /\
    code e = kUnknown /\ count is_run tr' = S k.
Proof.
  intros Hr Hc Hb Hi Hf Hsetup Hcopy Hfails.
  destruct Hsetup as (Hsolver & Hblas & Hsize & Halloc).
  destruct (GetrfImpl be T batch rows cols stream scratch a out ipiv info fuel [])
    as [[e tr'] | ] eqn:H.
  - exists e, tr'. split; [ reflexivity | ].
    unfold GetrfImpl, GetrfImpl_body in H.
    run_device H; try never_fails.
    all: match goal with
         | Hl : GetrfImpl_loop _ _ ?h ?m ?n ?ws ?lw _ _ _ ?o ?p ?f ?tr = Some _
           |- _ =>
             destruct (loop_fails_at be T h m n ws lw batch k Hfails Hb Hi
                         k fuel o p f tr eq_refl Hf)
               as (e1 & runs & Hrun & Hcode & Hlen & Hall);
             change (Z.of_nat (count is_run tr)) with 0 in Hrun;
             rewrite Hrun in Hl; injection Hl as Hl1 Hl2; subst
         end.
    all: try discriminate.
    all: split; [ congruence | ].
    all: unfold count; cbn [app filter is_run];
      rewrite (filter_only_runs runs Hall); exact Hlen.
  - exfalso. unfold GetrfImpl, GetrfImpl_body in H.
    run_device H.
    all: match goal with
         | Hl : GetrfImpl_loop _ _ ?h ?m ?n ?ws ?lw _ _ _ ?o ?p ?f ?tr = None
           |- _ =>
             destruct (loop_fails_at be T h m n ws lw batch k Hfails Hb Hi
                         k fuel o p f tr eq_refl Hf)
               as (e1 & runs & Hrun & _);
             change (Z.of_nat (count is_run tr)) with 0 in Hrun;
             rewrite Hrun in Hl; discriminate Hl
         end.
Qed.

End FailingRunDispatch.

Lemma breaks_at_fails (k : nat) : run_fails_at k (breaks_at k).
Proof.
  intros tr T h m n p. cbn [breaks_at getrf]. split.
  - intros Hlt. apply Nat.ltb_lt in Hlt. rewrite Hlt. reflexivity.
  - intros Heq. rewrite Heq, Nat.ltb_irrefl. eexists. reflexivity.
Qed.

Lemma breaks_at_setup_succeeds (k : nat) : setup_succeeds (breaks_at k) roomy.
Proof. repeat split; intros; cbn; discriminate. Qed.



(** The looped dispatch of the sample above, evaluated: four [Run] calls
    are made for a count whose conversion to [int] is 2. *)
Example looped_runs_past_the_converted_count :
  to_int 4294967298 = 2 /\
  GetrfDispatch (breaks_at 3) 1 roomy
                (mkAnyBuffer F32 [4294967298; 1; 2] 1000)
                (mkAnyBuffer F32 [4294967298; 1; 2] 1000) pivots infos 4 []
  = Some (mkError kUnknown "getrf: execution failed",
          [SolverBorrow 1 (Some 7);
           BufferSizeQuery T_float 7 1 2 1 gpuSuccess 16;
           ScratchAllocate 64 (Some 4096);
           GetrfRun T_float 7 1 2 1000 1 4096 16 3000 4000 gpuSuccess 0;
           GetrfRun T_float 7 1 2 1008 1 4096 16 3004 4004 gpuSuccess 0;
           GetrfRun T_float 7 1 2 1016 1 4096 16 3008 4008 gpuSuccess 0;
           GetrfRun T_float 7 1 2 1024 1 4096 16 3012 4012
                    (gpuFailure "getrf: execution failed") 0]).
Proof. split; reflexivity. Qed.

(** Claim C7 at the input where the code misses it: two 50000 x 50000
    matrices of floats, input and output distinct.  The payload of
    4 * 2 * 50000 * 50000 bytes is copied from the input to the output on
    the caller's stream before the first [Run], and the first [Run] works
    on the output buffer; but the second [Run] is given the cursor moved
    by the [int] product 50000 * 50000, which has wrapped: an address below
    the output buffer and not the second matrix of it. *)
Theorem second_run_leaves_the_output_buffer :
  GetrfDispatch friendly 1 roomy
                (mkAnyBuffer F32 [2; 50000; 50000] 100000000000)
                (mkAnyBuffer F32 [2; 50000; 50000] 200000000000)
                pivots infos 2 []
  = Some (Success,
          [SolverBorrow 1 (Some 7);
           BufferSizeQuery T_float 7 50000 50000 50000 gpuSuccess 16;
           ScratchAllocate 64 (Some 4096);
           MemcpyAsync 200000000000 100000000000
                       (sizeof T_float * (2 * 50000 * 50000)) 1 gpuSuccess;
           GetrfRun T_float 7 50000 50000 200000000000 50000 4096 16
                    3000 4000 gpuSuccess 1;
           GetrfRun T_float 7 50000 50000
                    (200000000000 + sizeof T_float * (50000 * 50000 - 2 ^ 32))
                    50000 4096 16
                    (3000 + sizeof_int * 50000) (4000 + sizeof_int)
                    gpuSuccess 1]) /\
  200000000000 + sizeof T_float * (50000 * 50000 - 2 ^ 32) < 200000000000 /\
  200000000000 + sizeof T_float * (50000 * 50000 - 2 ^ 32)
  <> 200000000000 + sizeof T_float * (1 * (50000 * 50000)).
Proof.
  split; [ reflexivity | split; [ reflexivity | discriminate ] ].
Qed.
